(** * cloudify-ansible-plugin: the helpers of [cloudify_ansible/utils.py]

    A shallow embedding of the functions of [cloudify_ansible/utils.py]
    (Python 2) and the properties of them stated by the specification.

    Python dictionaries with string keys are finite maps ([gmap string _]);
    exceptions are an error type threaded together with the state the
    function mutates (the Cloudify context, the process environment, the
    filesystem), so that what a function has already written is still
    visible after it raises. *)

From Stdlib Require Import ZArith String Ascii List.
From stdpp Require Import gmap strings list fin_maps.

Local Set Warnings "-register-all".
Local Open Scope string_scope.

(** ** Python values *)

Module Py.

(** The values that YAML documents, node properties and runtime properties
    hold.  Dictionary keys are strings throughout the plugin. *)
Inductive value : Type :=
| VNone
| VBool (b : bool)
| VInt (n : Z)
| VStr (s : string)
| VList (l : list value)
| VDict (d : gmap string value).

(** [bool(v)]: the truth value Python gives to [v] in [if], [and], [or],
    [not]. *)
Definition truthy (v : value) : bool :=
  match v with
  | VNone => false
  | VBool b => b
  | VInt n => negb (n =? 0)%Z
  | VStr s => negb (String.eqb s "")
  | VList l => match l with [] => false | _ :: _ => true end
  | VDict d => negb (bool_decide (d = ∅))
  end.

(** Truth value of an optional string argument ([None] by default). *)
Definition truthy_str (o : option string) : bool :=
  match o with
  | None => false
  | Some s => negb (String.eqb s "")
  end.

(** Truth value of an optional dictionary argument ([None] by default). *)
Definition truthy_dict (o : option (gmap string value)) : bool :=
  match o with
  | None => false
  | Some d => negb (bool_decide (d = ∅))
  end.

(** [a or b] on an optional string argument and a string. *)
Definition or_str (a : option string) (b : string) : string :=
  match a with
  | Some s => if truthy_str a then s else b
  | None => b
  end.

(** [a or b] on an optional dictionary argument, [b] computed on demand. *)
Definition or_dict (a : option (gmap string value))
    (b : gmap string value) : gmap string value :=
  match a with
  | Some d => if truthy_dict a then d else b
  | None => b
  end.

(** [d.get(k)] and [d.get(k, default)] on a dictionary. *)
Definition dict_get (d : gmap string value) (k : string) : value :=
  default VNone (d !! k).

Definition dict_get_default (d : gmap string value) (k : string)
    (dflt : value) : value :=
  default dflt (d !! k).

(** [needle in s] for two strings: [needle] occurs in [s]. *)
Fixpoint str_contains (needle s : string) : bool :=
  String.prefix needle s ||
  match s with
  | EmptyString => false
  | String _ s' => str_contains needle s'
  end.

(** [v == s] for a value and a string. *)
Definition eq_str (v : value) (s : string) : bool :=
  match v with
  | VStr s' => String.eqb s' s
  | _ => false
  end.

(** The type of a value, as [type(v)] reports it. *)
Inductive py_type := TNoneType | TBool | TInt | TStr | TList | TDict.

Definition type_of (v : value) : py_type :=
  match v with
  | VNone => TNoneType
  | VBool _ => TBool
  | VInt _ => TInt
  | VStr _ => TStr
  | VList _ => TList
  | VDict _ => TDict
  end.

(** An argument of [str.format]: a value or a type object. *)
Inductive fmt_arg :=
| FValue (v : value)
| FType (t : py_type).

(** A formatted message, kept as the template and its arguments:
    [template.format( *args )]. *)
Record message := Message { template : string; args : list fmt_arg }.

(** The exceptions the modelled code raises or lets through. *)
Inductive exn :=
| NonRecoverableError (m : message)
| OperationRetry (m : message)
| TypeError
| AttributeError
| KeyError (k : string)
| IOError
| OSError
| ContextError.

(** [s in v] where [v] is any value: substring for a string, membership for
    a list, key membership for a dictionary, [TypeError] otherwise. *)
Definition contains (v : value) (s : string) : exn + bool :=
  match v with
  | VStr hay => inr (str_contains s hay)
  | VList l => inr (existsb (fun x => eq_str x s) l)
  | VDict d => inr (bool_decide (is_Some (d !! s)))
  | _ => inl TypeError
  end.

(** [v.get(k)] where [v] is any value: only dictionaries have [get]. *)
Definition attr_get (v : value) (k : string) : exn + value :=
  match v with
  | VDict d => inr (dict_get d k)
  | _ => inl AttributeError
  end.

End Py.

Import Py.

(** ** Computations that mutate a state and may raise *)

(** A computation over a state [S]: it returns a result or raises, and in
    both cases leaves a state behind. *)
Definition M (S A : Type) : Type := S -> (exn + A) * S.

Definition ret {S A} (a : A) : M S A := fun s => (inr a, s).

Definition raise {S A} (e : exn) : M S A := fun s => (inl e, s).

Definition bind {S A B} (c : M S A) (k : A -> M S B) : M S B :=
  fun s =>
    match c s with
    | (inr a, s') => k a s'
    | (inl e, s') => (inl e, s')
    end.

Definition get_state {S} : M S S := fun s => (inr s, s).

Definition modify {S} (f : S -> S) : M S unit := fun s => (inr tt, f s).

(** [try: c except TypeError: handler]. *)
Definition try_except_TypeError {S A} (c handler : M S A) : M S A :=
  fun s =>
    match c s with
    | (inl TypeError, s') => handler s'
    | r => r
    end.

(** [for k, v in d.items(): body(k, v)], the items taken in the order of
    [map_to_list]. *)
Definition for_items {S V} (d : gmap string V)
    (body : string -> V -> M S unit) : M S unit :=
  foldr (fun kv rest => bind (body kv.1 kv.2) (fun _ => rest)) (ret tt)
    (map_to_list d).

(** Lift a pure computation that may raise. *)
Definition lift {S A} (r : exn + A) : M S A := fun s => (r, s).

Notation "x <- c ;; k" := (bind c (fun x => k))
  (at level 100, c at next level, right associativity).
Notation "c ;;; k" := (bind c (fun _ => k))
  (at level 100, right associativity).

(** ** The operating system: filesystem, uuid source, process environment *)

Module OS.

(** A filesystem entry: a regular file with its content and permission
    bits, or a directory. *)
Inductive fs_node :=
| File (content : string) (mode : Z)
| Dir.

(** What the functions see of the operating system.  Paths are the
    strings handed to the [os] calls; [writable] tells at which paths the
    process may open a file for writing (the parent directory exists and
    permissions allow it); [uuid_gen] and [uuid_counter] stand for the
    successive results of [str(uuid1())]. *)
Record os_state := OsState {
  files : gmap string fs_node;
  umask : Z;
  writable : string -> bool;
  uuid_gen : nat -> string;
  uuid_counter : nat
}.

Definition set_files (f : gmap string fs_node -> gmap string fs_node)
    (st : os_state) : os_state :=
  {| files := f (files st); umask := umask st; writable := writable st;
     uuid_gen := uuid_gen st; uuid_counter := uuid_counter st |}.

(** [os.path.exists(p)] on a path string. *)
Definition exists_str (st : os_state) (p : string) : bool :=
  bool_decide (is_Some (files st !! p)).

(** [os.path.exists(v)] on any value: Python 2 raises [TypeError] when
    [v] is not a string. *)
Definition path_exists (v : value) : M os_state bool :=
  fun st =>
    match v with
    | VStr p => (inr (exists_str st p), st)
    | _ => (inl TypeError, st)
    end.

Fixpoint ends_with_slash (s : string) : bool :=
  match s with
  | EmptyString => false
  | String c EmptyString => Ascii.eqb c "/"%char
  | String _ s' => ends_with_slash s'
  end.

(** [os.path.join(a, b)] of [posixpath]. *)
Definition path_join (a b : string) : string :=
  if String.prefix "/" b then b
  else if String.eqb a "" || ends_with_slash a then a ++ b
  else a ++ "/" ++ b.

(** [str(uuid1())]. *)
Definition uuid1 : M os_state string :=
  fun st =>
    (inr (uuid_gen st (uuid_counter st)),
     {| files := files st; umask := umask st; writable := writable st;
        uuid_gen := uuid_gen st; uuid_counter := S (uuid_counter st) |}).

(** [open(p, 'w')]: creates the file with the default permission bits, or
    truncates it. *)
Definition open_w (p : string) : M os_state unit :=
  fun st =>
    if writable st p then
      match files st !! p with
      | Some Dir => (inl IOError, st)
      | Some (File _ m) => (inr tt, set_files (insert p (File "" m)) st)
      | None =>
          (inr tt,
           set_files
             (insert p (File "" (Z.land 438 (Z.lnot (umask st))))) st)
      end
    else (inl IOError, st).

(** [outfile.write(v)] on the file opened at [p]: Python 2 raises
    [TypeError] when [v] is not a string. *)
Definition write (p : string) (v : value) : M os_state unit :=
  fun st =>
    match v with
    | VStr data =>
        match files st !! p with
        | Some (File c m) =>
            (inr tt, set_files (insert p (File (c ++ data) m)) st)
        | _ => (inl IOError, st)
        end
    | _ => (inl TypeError, st)
    end.

(** [os.chmod(p, mode)]. *)
Definition chmod (p : string) (mode : Z) : M os_state unit :=
  fun st =>
    match files st !! p with
    | Some (File c _) => (inr tt, set_files (insert p (File c mode)) st)
    | Some Dir => (inr tt, st)
    | None => (inl OSError, st)
    end.

(** [os.environ]. *)
Abbreviation environ := (gmap string string).

End OS.

(** ** The Cloudify context *)

Module Cloudify.

(** [ctx.node]. *)
Record node := Node {
  node_name : string;
  node_type : string;
  type_hierarchy : list string;
  properties : gmap string value
}.

(** [ctx.instance]; [runtime_properties] is the per-instance store. *)
Record instance := Instance {
  instance_id : string;
  runtime_properties : gmap string value
}.

(** What has a [node] and an [instance]: a node-instance context itself,
    and the [source] and [target] of a relationship context. *)
Record subject := Subject {
  s_node : node;
  s_instance : instance
}.

(** [ctx.type] with what each kind of context gives access to. *)
Inductive view :=
| NODE_INSTANCE (self : subject)
| RELATIONSHIP_INSTANCE (source target : subject).

Inductive level := DEBUG | INFO | WARN | ERROR.

Record log_record := LogRecord { log_level : level; log_msg : message }.

(** The context object [ctx]; [logger] holds the records logged so far,
    oldest first. *)
Record context := Context {
  ctx_view : view;
  deployment_id : string;
  tenant_name : string;
  blueprint_id : string;
  _local : option value;
  logger : list log_record
}.

Definition set_view (v : view) (c : context) : context :=
  {| ctx_view := v; deployment_id := deployment_id c;
     tenant_name := tenant_name c; blueprint_id := blueprint_id c;
     _local := _local c; logger := logger c |}.

(** [ctx.logger.<level>(msg)]. *)
Definition log (l : level) (m : message) : M context unit :=
  modify (fun c =>
    {| ctx_view := ctx_view c; deployment_id := deployment_id c;
       tenant_name := tenant_name c; blueprint_id := blueprint_id c;
       _local := _local c; logger := (logger c ++ [LogRecord l m])%list |}).

Definition set_runtime_properties (rp : gmap string value)
    (s : subject) : subject :=
  {| s_node := s_node s;
     s_instance := {| instance_id := instance_id (s_instance s);
                      runtime_properties := rp |} |}.

(** [ctx.source]: only a relationship context has one. *)
Definition ctx_source (c : context) : exn + subject :=
  match ctx_view c with
  | RELATIONSHIP_INSTANCE src _ => inr src
  | NODE_INSTANCE _ => inl ContextError
  end.

(** A deployment group as the REST service reports it. *)
Record deployment_group := DeploymentGroup {
  members : option (list string)
}.

(** What [client.deployments.get(deployment_id)] returns. *)
Record deployment := Deployment {
  groups : option (gmap string deployment_group)
}.

(** [get_rest_client()]: [None] when no client can be built (the call
    raises [KeyError]), otherwise the deployments it serves. *)
Abbreviation rest_client := (option (string -> deployment)).

End Cloudify.

Import OS Cloudify.

(** ** The plugin *)

Section Plugin.

(** The constants of [cloudify_ansible/constants.py] that the modelled
    functions use: the reserved runtime-property key [SOURCES], the
    document key [HOSTS], and [BP_INCLUDES_PATH], a format string with the
    fields [tenant], [blueprint] and [relative_path], taken here as the
    function [BP_INCLUDES_PATH.format(tenant=, blueprint=,
    relative_path=)]. *)
Context (SOURCES HOSTS : string).
Context (BP_INCLUDES_PATH : string -> string -> string -> string).

(** *** The source document model ([cloudify_ansible_sdk.sources]) *)

(** Modelled from the spec: the class [AnsibleSource] of
    [cloudify_ansible_sdk/sources.py] is missing.  A source document maps
    group names to group records, a group record holds under [HOSTS] a
    mapping from hostnames to host variables (a mapping, or null).
    [AnsibleSource(d)] wraps the document [d] and [.config] gives the
    document back. *)
Record AnsibleSource := mkAnsibleSource { config : value }.

(** Modelled from the spec: merging one group record into another unions
    the [hosts] mappings, the entries of [theirs] overwriting the
    same-named entries of [mine]; every other key of [mine] is kept.  The
    operation is total: a record that has no [hosts] mapping is left as it
    is. *)
Definition merge_group (mine theirs : value) : value :=
  match mine, theirs with
  | VDict g, VDict g' =>
      match g !! HOSTS, g' !! HOSTS with
      | Some (VDict h), Some (VDict h') =>
          VDict (<[HOSTS := VDict (h' ∪ h)]> g)
      | _, _ => mine
      end
  | _, _ => mine
  end.

(** Modelled from the spec: [merge(other)]: for each group in [other], if
    absent in [self], insert verbatim; if present, union the [hosts]
    mappings. *)
Definition merge_source (self other : AnsibleSource) : AnsibleSource :=
  match config self, config other with
  | VDict a, VDict b =>
      mkAnsibleSource
        (VDict (union_with (fun mine theirs => Some (merge_group mine theirs))
                  a b))
  | _, _ => self
  end.

(** Modelled from the spec: subtracting a group record removes exactly the
    host keys listed in [theirs]; the group stays, even when empty. *)
Definition remove_group (mine theirs : value) : value :=
  match mine, theirs with
  | VDict g, VDict g' =>
      match g !! HOSTS, g' !! HOSTS with
      | Some (VDict h), Some (VDict h') =>
          VDict (<[HOSTS := VDict (h ∖ h')]> g)
      | _, _ => mine
      end
  | _, _ => mine
  end.

(** Modelled from the spec: [subtract(other)]: for each group in [other],
    if present in [self], remove the host keys listed in [other]'s group;
    a group or host absent from [self] is a no-op. *)
Definition remove_source (self other : AnsibleSource) : AnsibleSource :=
  match config self, config other with
  | VDict a, VDict b =>
      mkAnsibleSource
        (VDict (difference_with
                  (fun mine theirs => Some (remove_group mine theirs)) a b))
  | _, _ => self
  end.

(** *** [cloudify_ansible/utils.py] *)

Definition KEY_FILE : string := "ansible_ssh_private_key_file".

(** The body of the [elif key in existing_dict] branch of
    [recurse_dictionary]; the mode [0o600] is 384. *)
Definition materialize_key (workspace_dir : string)
    (existing_dict : gmap string value) (key_data : value)
    : M os_state (gmap string value) :=
  is_file_path <-
    try_except_TypeError (path_exists key_data) (ret false) ;;
  if negb is_file_path then
    u <- uuid1 ;;
    let private_key_file := path_join workspace_dir u in
    open_w private_key_file ;;;
    write private_key_file key_data ;;;
    chmod private_key_file 384 ;;;
    ret (<[KEY_FILE := VStr private_key_file]> existing_dict)
  else ret existing_dict.

(** [recurse_dictionary], on the value that holds the dictionary.  The
    loop over [existing_dict.items()] visits the items in the order of
    [map_to_list]; [cur] is the dictionary as updated so far. *)
Fixpoint recurse_dictionary (workspace_dir : string) (v : value)
    : M os_state (gmap string value) :=
  match v with
  | VDict existing_dict =>
      match existing_dict !! KEY_FILE with
      | None =>
          map_fold
            (fun k v' (rest : gmap string value ->
                              M os_state (gmap string value)) cur =>
               match v' with
               | VDict _ =>
                   r <- recurse_dictionary workspace_dir v' ;;
                   rest (<[k := VDict r]> cur)
               | _ => rest cur
               end)
            ret existing_dict existing_dict
      | Some key_data =>
          materialize_key workspace_dir existing_dict key_data
      end
  | _ => ret ∅
  end.

Definition handle_key_data (_data : gmap string value)
    (workspace_dir : string) : M os_state (gmap string value) :=
  recurse_dictionary workspace_dir (VDict _data).

(** [getattr(_ctx, '_local', False)]. *)
Definition is_local (_ctx : context) : bool :=
  truthy (default (VBool false) (_local _ctx)).

Definition handle_file_path (file_path : value) (_ctx : context)
    (st : os_state) : exn + string :=
  match file_path with
  | VStr p =>
      let file_path' :=
        if negb (is_local _ctx)
        then BP_INCLUDES_PATH (tenant_name _ctx) (blueprint_id _ctx) p
        else p in
      if exists_str st file_path' then inr file_path'
      else inl (NonRecoverableError
                  (Message "File path {0} does not exist."
                     [FValue (VStr file_path')]))
  | _ =>
      inl (NonRecoverableError
             (Message "The variable file_path {0} is a {1},expected a string."
                [FValue file_path; FType (type_of file_path)]))
  end.

(** [_get_instance] and [_get_node] pick the source side of a
    relationship. *)
Definition _get_subject (_ctx : context) : subject :=
  match ctx_view _ctx with
  | RELATIONSHIP_INSTANCE src _ => src
  | NODE_INSTANCE self => self
  end.

Definition _get_instance (_ctx : context) : instance :=
  s_instance (_get_subject _ctx).

Definition _get_node (_ctx : context) : node :=
  s_node (_get_subject _ctx).

(** [_get_instance(_ctx).runtime_properties[key] = v]. *)
Definition set_instance_property (key : string) (v : value)
    : M context unit :=
  modify (fun c =>
    match ctx_view c with
    | RELATIONSHIP_INSTANCE src tgt =>
        set_view
          (RELATIONSHIP_INSTANCE
             (set_runtime_properties
                (<[key := v]> (runtime_properties (s_instance src))) src)
             tgt) c
    | NODE_INSTANCE self =>
        set_view
          (NODE_INSTANCE
             (set_runtime_properties
                (<[key := v]> (runtime_properties (s_instance self))) self))
          c
    end).

(** [_ctx.source.instance.runtime_properties[key] = v]. *)
Definition set_source_property (key : string) (v : value)
    : M context unit :=
  fun c =>
    match ctx_view c with
    | RELATIONSHIP_INSTANCE src tgt =>
        (inr tt,
         set_view
           (RELATIONSHIP_INSTANCE
              (set_runtime_properties
                 (<[key := v]> (runtime_properties (s_instance src))) src)
              tgt) c)
    | NODE_INSTANCE _ => (inl ContextError, c)
    end.

Definition COMPUTE : string := "cloudify.nodes.Compute".

Definition get_group_name_and_hostname (_ctx : subject)
    (group_name hostname : option string) : exn + string * string :=
  if negb (truthy_str group_name) && negb (truthy_str hostname) &&
     negb (bool_decide (COMPUTE ∈ type_hierarchy (s_node _ctx)))
  then
    inl (NonRecoverableError
           (Message
              ("No sources or group_name, or hostname was provided, " ++
               "and furthermore no compute node was provided " ++
               "to generate them from.") []))
  else
    let group_name := or_str group_name (node_type (s_node _ctx)) in
    let hostname := or_str hostname (instance_id (s_instance _ctx)) in
    inr (group_name, hostname).

Definition STRICT : string := "-o StrictHostKeyChecking=no".

Definition get_host_config_from_compute_node (_ctx : subject)
    : exn + gmap string value :=
  let props := properties (s_node _ctx) in
  let agent_config := dict_get_default props "agent_config" (VDict ∅) in
  match attr_get agent_config "user",
        attr_get agent_config "password",
        attr_get agent_config "key" with
  | inr user, inr password, inr key =>
      inr (<["ansible_host" :=
               dict_get_default (runtime_properties (s_instance _ctx)) "ip"
                 (dict_get props "ip")]>
          (<["ansible_user" := user]>
          (<["ansible_ssh_pass" := password]>
          (<["ansible_ssh_private_key_file" := key]>
          (<["ansible_ssh_common_args" := VStr STRICT]>
          (<["ansible_become" :=
               dict_get_default props "ansible_become" (VBool true)]>
           ∅))))))
  | inl e, _, _ => inl e
  | _, inl e, _ => inl e
  | _, _, inl e => inl e
  end.

Definition get_additional_node_groups (rest : rest_client)
    (node_name deployment_id : string) : list string :=
  match rest with
  | None => []
  | Some client =>
      let deployment := client deployment_id in
      foldl
        (fun acc kv =>
           if bool_decide (node_name ∈ default [] (members kv.2)) &&
              truthy_str (Some kv.1)
           then (acc ++ [kv.1])%list else acc)
        [] (map_to_list (default ∅ (groups deployment)))
  end.

(** [{HOSTS: {hostname: host}}]. *)
Definition group_of (hostname : string) (host : value) : value :=
  VDict {[HOSTS := VDict {[hostname := host]}]}.

(** [host_config or get_host_config_from_compute_node(subj)]: the second
    operand is evaluated only when the first is false. *)
Definition host_config_or_derived (host_config : option (gmap string value))
    (subj : subject) : exn + gmap string value :=
  if truthy_dict host_config then inr (or_dict host_config ∅)
  else get_host_config_from_compute_node subj.

(** The loop [for additional_group in additional_node_groups]. *)
Definition add_additional_groups (hostname : string)
    (additional_node_groups : list string) (sources : gmap string value)
    : gmap string value :=
  foldl (fun acc additional_group =>
           <[additional_group := group_of hostname VNone]> acc)
    sources additional_node_groups.

Definition STRICT_WARNING : message :=
  Message
    ("This value {0} is not included in Ansible Configuration. " ++
     "This is required for automating host key approval.")
    [FValue (VDict {["ansible_ssh_common_args" := VStr STRICT]})].

(** The tail of [get_source_config_from_ctx], shared by its last two
    branches: [subj] is [_ctx.target] or [_ctx] itself. *)
Definition source_config_from (rest : rest_client) (subj : subject)
    (node_name : string) (group_name hostname : option string)
    (host_config : option (gmap string value))
    (sources : gmap string value) : M context value :=
  host_config <- lift (host_config_or_derived host_config subj) ;;
  names <- lift (get_group_name_and_hostname subj group_name hostname) ;;
  let group_name := names.1 in
  let hostname := names.2 in
  _ctx <- get_state ;;
  let additional_node_groups :=
    get_additional_node_groups rest node_name (deployment_id _ctx) in
  present <-
    lift (contains
            (dict_get_default host_config "ansible_ssh_common_args"
               (VStr ""))
            STRICT) ;;
  (if negb present then log WARN STRICT_WARNING else ret tt) ;;;
  let hosts := VDict {[hostname := VDict host_config]} in
  let sources := <[group_name := VDict {[HOSTS := hosts]}]> sources in
  let sources :=
    add_additional_groups hostname additional_node_groups sources in
  ret (config (mkAnsibleSource (VDict sources))).

Definition get_source_config_from_ctx (rest : rest_client)
    (group_name hostname : option string)
    (host_config sources : option (gmap string value))
    : M context value :=
  fun _ctx =>
    let sources := or_dict sources ∅ in
    match ctx_view _ctx with
    | NODE_INSTANCE self =>
        if negb (bool_decide (COMPUTE ∈ type_hierarchy (s_node self))) &&
           truthy (dict_get (runtime_properties (s_instance self)) SOURCES)
        then
          (inr (config (mkAnsibleSource
                          (dict_get (runtime_properties (s_instance self))
                             SOURCES))),
           _ctx)
        else
          source_config_from rest self (node_name (_get_node _ctx))
            group_name hostname host_config sources _ctx
    | RELATIONSHIP_INSTANCE _ target =>
        source_config_from rest target (node_name (s_node target))
          group_name hostname host_config sources _ctx
    end.

Definition update_sources_from_target (new_sources_dict : value)
    : M context value :=
  src <- (fun _ctx => (ctx_source _ctx, _ctx)) ;;
  let current_sources_dict :=
    dict_get_default (runtime_properties (s_instance src)) SOURCES
      (VDict ∅) in
  let current_sources := mkAnsibleSource current_sources_dict in
  let new_sources := mkAnsibleSource new_sources_dict in
  let current_sources := merge_source current_sources new_sources in
  set_source_property SOURCES (config current_sources) ;;;
  ret (config current_sources).

Definition cleanup_sources_from_target (new_sources_dict : value)
    : M context value :=
  src <- (fun _ctx => (ctx_source _ctx, _ctx)) ;;
  let current_sources_dict :=
    dict_get_default (runtime_properties (s_instance src)) SOURCES
      (VDict ∅) in
  let current_sources := mkAnsibleSource current_sources_dict in
  let new_sources := mkAnsibleSource new_sources_dict in
  let current_sources := remove_source current_sources new_sources in
  set_source_property SOURCES (config current_sources) ;;;
  ret (config current_sources).

(** The keyword arguments [get_remerged_config_sources] reads. *)
Record kwargs := Kwargs {
  kw_group_name : option string;
  kw_hostname : option string;
  kw_host_config : option (gmap string value)
}.

Definition get_remerged_config_sources (rest : rest_client) (kw : kwargs)
    : M context value :=
  fun _ctx =>
    match ctx_view _ctx with
    | RELATIONSHIP_INSTANCE _ _ =>
        let group_name := kw_group_name kw in
        let hostname := kw_hostname kw in
        let host_config := default ∅ (kw_host_config kw) in
        (new_sources_dict <-
           get_source_config_from_ctx rest group_name hostname
             (Some host_config) None ;;
         merged_sources <- update_sources_from_target new_sources_dict ;;
         ret (config (mkAnsibleSource merged_sources))) _ctx
    | NODE_INSTANCE _ =>
        get_source_config_from_ctx rest None None None None _ctx
    end.

Definition handle_result (result : gmap string value)
    (ignore_failures ignore_dark : bool) : M context unit :=
  log DEBUG (Message "result: {0}" [FValue (VDict result)]) ;;;
  set_instance_property "result" (VDict result) ;;;
  let failures := dict_get result "failures" in
  let dark := dict_get result "dark" in
  if truthy failures && negb ignore_failures then
    raise (NonRecoverableError
             (Message "These Ansible nodes failed: {0}" [FValue failures]))
  else if truthy dark && negb ignore_dark then
    raise (OperationRetry
             (Message "These Ansible nodes were dark: {0}" [FValue dark]))
  else ret tt.

Definition assign_environ (_vars : gmap string string) : M environ unit :=
  for_items _vars (fun key value => modify (insert key value)).

(** [del os.environ[key]] raises [KeyError] when [key] is not set. *)
Definition del_environ (key : string) : M environ unit :=
  fun env =>
    match env !! key with
    | Some _ => (inr tt, delete key env)
    | None => (inl (KeyError key), env)
    end.

Definition unassign_environ (_vars : gmap string string)
    : M environ unit :=
  for_items _vars (fun key _ => del_environ key).

(** *** Vocabulary of the properties *)

(** The outcome [handle_result] must have: which signal, if any. *)
Definition expected_outcome (result : gmap string value)
    (ignore_failures ignore_dark : bool) : exn + unit :=
  let failures := dict_get result "failures" in
  let dark := dict_get result "dark" in
  if truthy failures && negb ignore_failures then
    inl (NonRecoverableError
           (Message "These Ansible nodes failed: {0}" [FValue failures]))
  else if truthy dark && negb ignore_dark then
    inl (OperationRetry
           (Message "These Ansible nodes were dark: {0}" [FValue dark]))
  else inr tt.

(** The state [update_sources_from_target] and
    [cleanup_sources_from_target] leave: the source-side instance holds
    [doc] under [SOURCES]; nothing else changes. *)
Definition persisted (doc : value) (src tgt : subject) (_ctx : context)
    : context :=
  set_view
    (RELATIONSHIP_INSTANCE
       (set_runtime_properties
          (<[SOURCES := doc]> (runtime_properties (s_instance src))) src)
       tgt)
    _ctx.

(** The document the accumulator starts from: the one persisted on the
    source-side instance, the empty document when there is none. *)
Definition current_document (src : subject) : value :=
  match runtime_properties (s_instance src) !! SOURCES with
  | Some doc => doc
  | None => VDict ∅
  end.

(** A caller override is supplied when it is a non-empty string: [None] and
    [''] both count as false in the tests [not group_name] and
    [group_name or ...]. *)
Definition supplied (o : option string) : Prop :=
  exists s, o = Some s /\ s <> "".

(** The path [handle_file_path] looks for: prefixed with the
    blueprint-includes path unless the context is local. *)
Definition resolved (_ctx : context) (p : string) : string :=
  if is_local _ctx then p
  else BP_INCLUDES_PATH (tenant_name _ctx) (blueprint_id _ctx) p.

(** The side [get_source_config_from_ctx] translates: the target of a
    relationship, the node instance itself otherwise; none when the
    persisted document is returned instead. *)
Definition translated_subject (_ctx : context) : option subject :=
  match ctx_view _ctx with
  | NODE_INSTANCE self =>
      if negb (bool_decide (COMPUTE ∈ type_hierarchy (s_node self))) &&
         truthy (dict_get (runtime_properties (s_instance self)) SOURCES)
      then None else Some self
  | RELATIONSHIP_INSTANCE _ target => Some target
  end.

(** The host configuration derived from a compute node, entry by entry. *)
Definition expected_host_config (host user password key become : value)
    : gmap string value :=
  {[ "ansible_host" := host;
     "ansible_user" := user;
     "ansible_ssh_pass" := password;
     "ansible_ssh_private_key_file" := key;
     "ansible_ssh_common_args" := VStr "-o StrictHostKeyChecking=no";
     "ansible_become" := become ]}.

(** The operating system after [str(uuid1())] has been drawn and the key
    material [data] written to the file [p] with mode [0600]. *)
Definition key_file_written (p data : string) (st : os_state) : os_state :=
  {| files := <[p := File data 384]> (files st);
     umask := umask st; writable := writable st; uuid_gen := uuid_gen st;
     uuid_counter := S (uuid_counter st) |}.

(** The path of the next key file [handle_key_data] would create. *)
Definition next_key_file (workspace_dir : string) (st : os_state) : string :=
  path_join workspace_dir (uuid_gen st (uuid_counter st)).

(** Nesting depth of dictionaries in a value. *)
Fixpoint depth (v : value) : nat :=
  match v with
  | VDict d => S (map_fold (fun _ v' acc => Nat.max (depth v') acc) 0%nat d)
  | _ => 0%nat
  end.

(** Every key-file entry that [recurse_dictionary] reaches in [v] holds a
    path that exists. *)
Fixpoint settled (st : os_state) (v : value) : Prop :=
  match v with
  | VDict d =>
      match d !! KEY_FILE with
      | Some (VStr p) => exists_str st p = true
      | Some _ => False
      | None => map_fold (fun _ v' acc => settled st v' /\ acc) True d
      end
  | _ => True
  end.

(** The loop of [recurse_dictionary] over the items [l], with [rec] for the
    recursive call. *)
Definition key_loop (rec : value -> M os_state (gmap string value))
    (l : list (string * value))
    : gmap string value -> M os_state (gmap string value) :=
  foldr
    (uncurry
       (fun k v' (rest : gmap string value ->
                         M os_state (gmap string value)) cur =>
          match v' with
          | VDict _ => r <- rec v' ;; rest (<[k := VDict r]> cur)
          | _ => rest cur
          end))
    ret l.

(** [reaches d path leaf]: going down from [d] through the keys of [path],
    the recursion of [recurse_dictionary] arrives at the dictionary [leaf],
    the first on the way to have a key-file entry. *)
Inductive reaches
    : gmap string value -> list string -> gmap string value -> Prop :=
| reaches_here d :
    is_Some (d !! KEY_FILE) -> reaches d [] d
| reaches_down d k inner path leaf :
    d !! KEY_FILE = None -> d !! k = Some (VDict inner) ->
    reaches inner path leaf -> reaches d (k :: path) leaf.

(** Every path that exists in [st] exists in [st']. *)
Definition grows (st st' : os_state) : Prop :=
  forall p, exists_str st p = true -> exists_str st' p = true.

(** The context after the strict-host-key-checking test: a warning is
    logged when the override is not [present]. *)
Definition warned (present : bool) (_ctx : context) : context :=
  if present then _ctx else (log WARN STRICT_WARNING _ctx).2.

End Plugin.

(** ** More of the plugin *)

(** The context and the operating system together, for the functions that
    touch both. *)
Record world := World { w_ctx : context; w_os : os_state }.

Definition on_ctx {A} (c : M context A) : M world A :=
  fun w =>
    match c (w_ctx w) with
    | (r, ctx') => (r, {| w_ctx := ctx'; w_os := w_os w |})
    end.

Definition on_os {A} (c : M os_state A) : M world A :=
  fun w =>
    match c (w_os w) with
    | (r, st') => (r, {| w_ctx := w_ctx w; w_os := st' |})
    end.

(** [try: c except IOError: handler]. *)
Definition try_except_IOError {S A} (c handler : M S A) : M S A :=
  fun s =>
    match c s with
    | (inl IOError, s') => handler s'
    | r => r
    end.

(** The newline character. *)
Definition NEWLINE : string := String "010"%char EmptyString.

Section PluginMore.

(** The reserved runtime-property key [WORKSPACE] of
    [cloudify_ansible/constants.py]. *)
Context (WORKSPACE : string).

(** What the functions call outside the plugin: [shutil.rmtree] and
    [tempfile.mkdtemp], which act on the filesystem; the paths the process
    may open for reading; [_ctx.download_resource]. *)
Context (rmtree : string -> M os_state unit).
Context (mkdtemp : M os_state string).
Context (readable : string -> bool).
Context (download_resource : string -> string -> M world string).

(** The runtime properties of [_get_instance(_ctx)] replaced by [rp]. *)
Definition set_instance_properties (rp : gmap string value) (c : context)
    : context :=
  match ctx_view c with
  | RELATIONSHIP_INSTANCE src tgt =>
      set_view (RELATIONSHIP_INSTANCE (set_runtime_properties rp src) tgt) c
  | NODE_INSTANCE self =>
      set_view (NODE_INSTANCE (set_runtime_properties rp self)) c
  end.

(** [del _get_instance(_ctx).runtime_properties[key]]. *)
Definition del_instance_property (key : string) : M context unit :=
  fun c =>
    match runtime_properties (_get_instance c) !! key with
    | Some _ =>
        (inr tt,
         set_instance_properties
           (delete key (runtime_properties (_get_instance c))) c)
    | None => (inl (KeyError key), c)
    end.

(** [cleanup]: in Python 2 [items()] is a list made before the loop, so
    the deletions do not disturb the iteration. *)
Definition cleanup : M context unit :=
  fun ctx =>
    let instance := _get_instance ctx in
    for_items (runtime_properties instance)
      (fun key _ => del_instance_property key) ctx.

Definition create_playbook_workspace : M world unit :=
  d <- on_os mkdtemp ;;
  on_ctx (set_instance_property WORKSPACE (VStr d)).

Definition delete_playbook_workspace : M world unit :=
  fun w =>
    let directory :=
      dict_get (runtime_properties (_get_instance (w_ctx w))) WORKSPACE in
    if truthy directory then
      (there <- on_os (path_exists directory) ;;
       if there then
         match directory with
         | VStr p => on_os (rmtree p)
         | _ => raise TypeError
         end
       else ret tt) w
    else (inr tt, w).

(** [open(p, 'r')], giving the content: [IOError] when there is no file
    at [p], when [p] is a directory, or when it may not be read. *)
Definition open_r (p : string) : M os_state string :=
  fun st =>
    if readable p then
      match files st !! p with
      | Some (File c _) => (inr c, st)
      | _ => (inl IOError, st)
      end
    else (inl IOError, st).

Definition handle_source_from_string (filepath new_inventory_path : string)
    : M world string :=
  if negb (str_contains NEWLINE filepath) then
    try_except_IOError
      (on_os (open_r filepath) ;;; ret filepath)
      (download_resource filepath new_inventory_path ;;;
       ret new_inventory_path)
  else
    on_os (open_w new_inventory_path) ;;;
    on_ctx (log INFO
              (Message "Writing this data to temp file: {0}"
                 [FValue (VStr new_inventory_path)])) ;;;
    on_os (write new_inventory_path (VStr filepath)) ;;;
    ret new_inventory_path.

End PluginMore.

Section PluginSources.

Context (WORKSPACE HOSTS : string).
Context (readable : string -> bool).
Context (download_resource : string -> string -> M world string).

(** [yaml.safe_dump(data, default_flow_style=False)], the text written to
    the file. *)
Context (safe_dump : gmap string value -> string).

(** The characters of a path from its last one back to, and with, the
    last ["/"]: none when the path has no ["/"]. *)
Fixpoint from_last_slash (rev_chars : list ascii) : list ascii :=
  match rev_chars with
  | [] => []
  | c :: rest =>
      if Ascii.eqb c "/"%char then rev_chars else from_last_slash rest
  end.

Fixpoint strip_slashes (rev_chars : list ascii) : list ascii :=
  match rev_chars with
  | [] => []
  | c :: rest =>
      if Ascii.eqb c "/"%char then strip_slashes rest else rev_chars
  end.

(** [os.path.dirname(p)] of [posixpath]: the part up to the last ["/"],
    without trailing slashes unless it is made of slashes only. *)
Definition dirname (p : string) : string :=
  let head := from_last_slash (rev (list_ascii_of_string p)) in
  string_of_list_ascii
    (rev (match strip_slashes head with
          | [] => head
          | stripped => stripped
          end)).

(** [os.path.join(a, b)] when [a] is not a string: [b] if it is absolute,
    [AttributeError] otherwise. *)
Definition path_join_value (a : value) (b : string) : exn + string :=
  match a with
  | VStr a' => inr (path_join a' b)
  | _ => if String.prefix "/" b then inr b else inl AttributeError
  end.

(** [recurse_dictionary] of [handle_key_data] when the workspace directory
    is any value. *)
Definition materialize_key_in (workspace_dir : value)
    (existing_dict : gmap string value) (key_data : value)
    : M os_state (gmap string value) :=
  is_file_path <-
    try_except_TypeError (path_exists key_data) (ret false) ;;
  if negb is_file_path then
    u <- uuid1 ;;
    private_key_file <- lift (path_join_value workspace_dir u) ;;
    open_w private_key_file ;;;
    write private_key_file key_data ;;;
    chmod private_key_file 384 ;;;
    ret (<[KEY_FILE := VStr private_key_file]> existing_dict)
  else ret existing_dict.

Fixpoint recurse_dictionary_in (workspace_dir : value) (v : value)
    : M os_state (gmap string value) :=
  match v with
  | VDict existing_dict =>
      match existing_dict !! KEY_FILE with
      | None =>
          map_fold
            (fun k v' (rest : gmap string value ->
                              M os_state (gmap string value)) cur =>
               match v' with
               | VDict _ =>
                   r <- recurse_dictionary_in workspace_dir v' ;;
                   rest (<[k := VDict r]> cur)
               | _ => rest cur
               end)
            ret existing_dict existing_dict
      | Some key_data =>
          materialize_key_in workspace_dir existing_dict key_data
      end
  | _ => ret ∅
  end.

(** [handle_key_data(data, workspace)] as [handle_sources] calls it, with
    whatever value the [WORKSPACE] runtime property holds. *)
Definition handle_key_data_in (_data : gmap string value)
    (workspace_dir : value) : M os_state (gmap string value) :=
  match workspace_dir with
  | VStr dir => handle_key_data _data dir
  | _ => recurse_dictionary_in workspace_dir (VDict _data)
  end.

(** [_get_instance(_ctx).runtime_properties[WORKSPACE]]. *)
Definition workspace_of : M context value :=
  fun c =>
    match runtime_properties (_get_instance c) !! WORKSPACE with
    | Some v => (inr v, c)
    | None => (inl (KeyError WORKSPACE), c)
    end.

Definition handle_sources (data : value) (site_yaml_abspath : string)
    : M world string :=
  let hosts_abspath := path_join (dirname site_yaml_abspath) HOSTS in
  hosts_abspath <-
    match data with
    | VDict d =>
        workspace <- on_ctx workspace_of ;;
        data <- on_os (handle_key_data_in d workspace) ;;
        there <- on_os (path_exists (VStr hosts_abspath)) ;;
        (if there then
           on_ctx (log ERROR
                     (Message
                        ("Hosts data was provided but {0} already exists. " ++
                         "Overwriting existing file.")
                        [FValue (VStr hosts_abspath)]))
         else ret tt) ;;;
        on_os (open_w hosts_abspath) ;;;
        on_ctx (log INFO
                  (Message "Writing this data to temp file: {0}"
                     [FValue (VDict data)])) ;;;
        on_os (write hosts_abspath (VStr (safe_dump data))) ;;;
        ret hosts_abspath
    | VStr text =>
        handle_source_from_string readable download_resource text
          hosts_abspath
    | _ => ret hosts_abspath
    end ;;
  content <- on_os (open_r readable hosts_abspath) ;;
  on_ctx (log DEBUG
            (Message ("Contents hosts:" ++ NEWLINE ++ " {0}")
               [FValue (VStr content)])) ;;;
  ret hosts_abspath.

End PluginSources.

(** [st'] comes after [st]: every path that existed still exists, the
    settings of the process are the same and [uuid1] has only moved on. *)
Definition follows (st st' : os_state) : Prop :=
  grows st st'
  /\ umask st' = umask st
  /\ writable st' = writable st
  /\ uuid_gen st' = uuid_gen st
  /\ (uuid_counter st <= uuid_counter st')%nat.





(** The world with one more record in the log. *)
Definition logged (l : level) (m : message) (w : world) : world :=
  {| w_ctx := (log l m (w_ctx w)).2; w_os := w_os w |}.

(** ** [ansible_plugin/tasks.py] *)

Section Tasks.

(** The helpers of [ansible_plugin/utils.py], which is not part of the
    sources at hand: they may do anything to the world and raise. *)
Context (get_playbook_path get_inventory_path get_executible_path
           : string -> M world string).
Context (run_command : list string -> M world string).

Definition run_playbook (path_to_key playbook private_ip_address : string)
    : M world unit :=
  on_ctx (log DEBUG (Message "Getting the path to the playbook." [])) ;;;
  playbook_path <- get_playbook_path playbook ;;
  on_ctx (log DEBUG (Message "Got the playbook path: {}."
                       [FValue (VStr playbook_path)])) ;;;
  on_ctx (log DEBUG (Message "Getting the inventory path." [])) ;;;
  inventory_path <- get_inventory_path private_ip_address ;;
  on_ctx (log DEBUG (Message "Got the inventory path: {}."
                       [FValue (VStr inventory_path)])) ;;;
  executible <- get_executible_path "ansible-playbook" ;;
  let command :=
    [executible; "--sudo"; "-i"; inventory_path; playbook_path;
     "--private-key"; path_to_key; "--timeout=60"] in
  on_os (chmod path_to_key 384) ;;;
  on_ctx (log INFO (Message "Running command: {}."
                      [FValue (VList (VStr <$> command))])) ;;;
  output <- run_command command ;;
  on_ctx (log INFO (Message "Command Output: {}."
                      [FValue (VStr output)])) ;;;
  on_ctx (log INFO (Message "Finished running the Ansible Playbook." [])).

End Tasks.

(** ** A sample deployment *)

(** A virtual machine [vm] of type [cloudify.nodes.Compute] and an
    application node [app] related to it, with the values the plugin's
    [constants.py] gives to the constants. *)
Module Sample.

Definition SOURCES : string := "sources".
Definition HOSTS : string := "hosts".

Definition BP_INCLUDES_PATH (tenant blueprint relative_path : string)
    : string :=
  "/opt/manager/resources/blueprints/" ++ tenant ++ "/" ++ blueprint ++
  "/" ++ relative_path.

Definition vm : subject :=
  {| s_node :=
       {| node_name := "vm";
          node_type := "cloudify.nodes.Compute";
          type_hierarchy := ["cloudify.nodes.Root"; "cloudify.nodes.Compute"];
          properties :=
            {[ "ip" := VStr "10.0.0.5";
               "agent_config" := VDict {[ "user" := VStr "ubuntu" ]} ]} |};
     s_instance :=
       {| instance_id := "vm_x7k2p1"; runtime_properties := ∅ |} |}.

(** The document [app] holds once [vm] has been merged into it. *)
Definition app_sources : gmap string value :=
  {[ "cloudify.nodes.Compute" :=
       VDict {[ "hosts" :=
                  VDict {[ "vm_x7k2p1" :=
                             VDict {[ "ansible_host" := VStr "10.0.0.5" ]}
                        ]} ]} ]}.

Definition app : subject :=
  {| s_node :=
       {| node_name := "app";
          node_type := "cloudify.nodes.ApplicationModule";
          type_hierarchy :=
            ["cloudify.nodes.Root"; "cloudify.nodes.ApplicationModule"];
          properties := ∅ |};
     s_instance :=
       {| instance_id := "app_q3m9z0";
          runtime_properties := {[ "sources" := VDict app_sources ]} |} |}.

Definition context_of (v : view) : context :=
  {| ctx_view := v; deployment_id := "shop"; tenant_name := "default_tenant";
     blueprint_id := "shop-bp"; _local := None; logger := [] |}.

(** [app] is connected to [vm]. *)
Definition relationship : context :=
  context_of (RELATIONSHIP_INSTANCE app vm).

(** An operation on [app] alone. *)
Definition node_instance : context := context_of (NODE_INSTANCE app).

(** The deployment has one group, [webservers], with [vm] in it. *)
Definition rest : rest_client :=
  Some (fun _ =>
          {| groups :=
               Some {[ "webservers" :=
                         {| members := Some ["vm"] |} ]} |}).

(** A fragment that brings a second host. *)
Definition fragment : value :=
  VDict {[ "cloudify.nodes.Compute" :=
             VDict {[ "hosts" :=
                        VDict {[ "db_h4c8w2" :=
                                   VDict {[ "ansible_host" :=
                                              VStr "10.0.0.6" ]} ]} ]} ]}.

(** A host configuration given by the caller, without the
    strict-host-key-checking override. *)
Definition caller_config : gmap string value :=
  {[ "ansible_host" := VStr "192.168.1.20"; "ansible_user" := VStr "admin" ]}.

Definition inline_key : string := "-----BEGIN KEY-----...".

(** A host entry with inline key material. *)
Definition host_entry : gmap string value :=
  {[ "ansible_host" := VStr "10.0.0.5";
     "ansible_ssh_private_key_file" := VStr inline_key ]}.

(** An inventory with that host, three levels down. *)
Definition inventory : gmap string value :=
  {[ "webservers" :=
       VDict {[ "hosts" := VDict {[ "vm_x7k2p1" := VDict host_entry ]} ]} ]}.

(** The workspace directory exists and is empty; [uuid1] gives
    ["key-"] followed by as many ["i"] as calls made before. *)
Definition os : os_state :=
  {| files := {[ "/tmp/tmpXk2a9b" := Dir ]};
     umask := 18;
     writable := String.prefix "/tmp/tmpXk2a9b/";
     uuid_gen := fun n => "key-" ++ String.concat "" (replicate n "i");
     uuid_counter := 0 |}.

End Sample.

(** ** A sample host *)

(** The machine the plugin runs on, for the sample deployment: the
    workspace of the operation, stand-ins for what the plugin calls
    outside itself, and the helpers of the playbook task. *)
Module SampleHost.

Definition WORKSPACE : string := "workspace".

(** [mkdtemp] makes the workspace directory of the sample. *)
Definition mkdtemp : M os_state string :=
  fun st => (inr "/tmp/tmpXk2a9b", set_files (insert "/tmp/tmpXk2a9b" Dir) st).

(** [rmtree] of a directory with nothing in it. *)
Definition rmtree (p : string) : M os_state unit :=
  fun st => (inr tt, set_files (delete p) st).

Definition readable (p : string) : bool := true.

(** The resource is fetched to the target path, as an empty inventory. *)
Definition download_resource (resource target : string) : M world string :=
  on_os (open_w target) ;;; ret target.

(** A stand-in for the YAML dump: the top-level keys, one to a line. *)
Definition safe_dump (d : gmap string value) : string :=
  String.concat "" ((fun kv => kv.1 ++ ":" ++ NEWLINE) <$> map_to_list d).

(** [app] during an operation, with its workspace recorded. *)
Definition staged : subject :=
  {| s_node := s_node Sample.app;
     s_instance :=
       {| instance_id := "app_q3m9z0";
          runtime_properties :=
            {[ "workspace" := VStr "/tmp/tmpXk2a9b" ]} |} |}.

Definition world_of (s : subject) (st : os_state) : world :=
  {| w_ctx := Sample.context_of (NODE_INSTANCE s); w_os := st |}.

(** The playbook copied to the workspace. *)
Definition site_yaml : string := "/tmp/tmpXk2a9b/playbook/site.yaml".

Definition get_playbook_path (playbook : string) : M world string :=
  ret ("/opt/playbooks/" ++ playbook).

Definition get_inventory_path (private_ip_address : string)
    : M world string :=
  ret ("/tmp/inventory-" ++ private_ip_address).

Definition get_executible_path (executable : string) : M world string :=
  ret ("/usr/bin/" ++ executable).

Definition run_command (command : list string) : M world string :=
  ret "PLAY RECAP".

(** The key of the sample, written out with the default mode. *)
Definition with_key : os_state :=
  set_files (insert "/tmp/tmpXk2a9b/id_rsa" (File Sample.inline_key 420))
    Sample.os.

End SampleHost.

(** ** Properties *)

(** *** Truth values *)

Lemma truthy_VList (l : list value) : truthy (VList l) = true <-> l <> [].
Proof. destruct l; simpl; split; congruence. Qed.

Lemma truthy_VDict (d : gmap string value) :
  truthy (VDict d) = true <-> d <> ∅.
Proof.
  simpl. rewrite negb_true_iff, bool_decide_eq_false. reflexivity.
Qed.

Lemma truthy_VStr (s : string) : truthy (VStr s) = true <-> s <> "".
Proof.
  simpl. rewrite negb_true_iff. split.
  - intros H ->. discriminate.
  - intros H. apply String.eqb_neq. exact H.
Qed.

Lemma truthy_absent (d : gmap string value) (k : string) :
  d !! k = None -> truthy (dict_get d k) = false.
Proof. unfold dict_get. intros ->. reflexivity. Qed.

(** *** The result reconciler *)

Lemma set_instance_property_get (key : string) (v : value) (c : context) :
  runtime_properties (_get_instance (set_instance_property key v c).2)
  = <[key := v]> (runtime_properties (_get_instance c)).
Proof.
  unfold set_instance_property, modify, _get_instance, _get_subject. simpl.
  destruct (ctx_view c); reflexivity.
Qed.

Lemma log_get_instance (l : level) (m : message) (c : context) :
  _get_instance (log l m c).2 = _get_instance c.
Proof. reflexivity. Qed.

Lemma handle_result_run (result : gmap string value)
    (ignore_failures ignore_dark : bool) (_ctx : context) :
  handle_result result ignore_failures ignore_dark _ctx
  = (expected_outcome result ignore_failures ignore_dark,
     (set_instance_property "result" (VDict result)
        (log DEBUG (Message "result: {0}" [FValue (VDict result)]) _ctx).2).2).
Proof.
  unfold handle_result, expected_outcome, bind. simpl.
  destruct (truthy (dict_get result "failures") && negb ignore_failures);
    [reflexivity |].
  destruct (truthy (dict_get result "dark") && negb ignore_dark);
    reflexivity.
Qed.

(** Closes the case analyses on a concrete outcome: propositional
    structure, then equalities between distinct constructors. *)
Ltac settle_outcome :=
  repeat match goal with
         | |- _ /\ _ => split
         | |- _ <-> _ => split
         | |- _ -> _ => intro
         | |- ~ _ => intro
         | H : _ /\ _ |- _ => destruct H
         | H : exists _, _ |- _ => destruct H
         | H : inl _ = inr _ |- _ => discriminate H
         | H : inr _ = inl _ |- _ => discriminate H
         | H : true = false |- _ => discriminate H
         | H : false = true |- _ => discriminate H
         | H : inl ?a = inl ?b |- _ => discriminate H
         | |- ?x = ?x => reflexivity
         | |- exists _, _ = _ => eexists; reflexivity
         end;
  try solve [exfalso; intuition (discriminate || congruence)].

(** C1. Whatever the result and the two flags, [handle_result] leaves the
    full result payload in the instance's runtime properties under
    ['result'] (whether it then raises or not); it raises
    [NonRecoverableError] naming [result.get('failures')] exactly when that
    value is non-empty (true in Python's sense) and [ignore_failures] is
    false; otherwise it raises [OperationRetry] naming [result.get('dark')]
    exactly when that value is non-empty and [ignore_dark] is false;
    otherwise it returns normally. *)
Theorem handle_result_spec (result : gmap string value)
    (ignore_failures ignore_dark : bool) (_ctx : context) :
  let failures := dict_get result "failures" in
  let dark := dict_get result "dark" in
  let out := handle_result result ignore_failures ignore_dark _ctx in
  let fails := truthy failures = true /\ ignore_failures = false in
  let darks := truthy dark = true /\ ignore_dark = false in
  runtime_properties (_get_instance out.2)
    = <["result" := VDict result]> (runtime_properties (_get_instance _ctx))
  /\ runtime_properties (_get_instance out.2) !! "result"
     = Some (VDict result)
  /\ (out.1 = inl (NonRecoverableError
                     (Message "These Ansible nodes failed: {0}"
                        [FValue failures])) <-> fails)
  /\ ((exists m, out.1 = inl (NonRecoverableError m)) <-> fails)
  /\ (out.1 = inl (OperationRetry
                     (Message "These Ansible nodes were dark: {0}"
                        [FValue dark])) <-> ~ fails /\ darks)
  /\ ((exists m, out.1 = inl (OperationRetry m)) <-> ~ fails /\ darks)
  /\ (out.1 = inr tt <-> ~ fails /\ ~ darks).
Proof.
  intros failures dark out fails darks.
  assert (Hout : out.1 = expected_outcome result ignore_failures ignore_dark)
    by (unfold out; rewrite handle_result_run; reflexivity).
  assert (Hst : runtime_properties (_get_instance out.2)
                = <["result" := VDict result]>
                    (runtime_properties (_get_instance _ctx))).
  { unfold out. rewrite handle_result_run. cbn [snd].
    rewrite set_instance_property_get, log_get_instance. reflexivity. }
  split; [exact Hst |].
  split; [rewrite Hst; apply lookup_insert_eq |].
  rewrite Hout. unfold expected_outcome, fails, darks.
  fold failures dark.
  destruct (truthy failures), ignore_failures, (truthy dark), ignore_dark;
    simpl; settle_outcome.
Qed.

(** *** The source document model *)

Section Documents.

Context (SOURCES HOSTS : string).

Lemma merge_group_idempotent (mine theirs : value) :
  merge_group HOSTS (merge_group HOSTS mine theirs) theirs
  = merge_group HOSTS mine theirs.
Proof.
  destruct mine as [| | | | |g]; try reflexivity.
  destruct theirs as [| | | | |g']; try reflexivity.
  unfold merge_group at 2 3.
  destruct (g !! HOSTS) as [[| | | | |h]|] eqn:Hg;
    try (simpl; rewrite Hg; reflexivity).
  destruct (g' !! HOSTS) as [[| | | | |h']|] eqn:Hg';
    try (simpl; rewrite Hg, Hg'; reflexivity).
  simpl. rewrite lookup_insert_eq, Hg', insert_insert_eq.
  rewrite (assoc_L (∪)), (idemp_L (∪)). reflexivity.
Qed.

Lemma merge_source_twice (A B : AnsibleSource) :
  merge_source HOSTS (merge_source HOSTS A B) B = merge_source HOSTS A B.
Proof.
  destruct A as [a], B as [b]. unfold merge_source. simpl.
  destruct a as [| | | | |a]; try reflexivity.
  destruct b as [| | | | |b]; try reflexivity.
  simpl. do 2 f_equal. apply map_eq. intros g.
  rewrite !lookup_union_with.
  destruct (a !! g) as [x|], (b !! g) as [y|]; simpl; try reflexivity.
  - rewrite merge_group_idempotent. reflexivity.
  - destruct y as [| | | | |gy]; try reflexivity.
    simpl. destruct (gy !! HOSTS) as [[| | | | |hy]|] eqn:Hy;
      try reflexivity.
    rewrite (idemp_L (∪)). rewrite insert_id; [reflexivity | assumption].
Qed.

Lemma update_sources_from_target_run (new : value) (_ctx : context)
    (src tgt : subject) :
  ctx_view _ctx = RELATIONSHIP_INSTANCE src tgt ->
  let merged :=
    config (merge_source HOSTS
              (mkAnsibleSource (current_document SOURCES src))
              (mkAnsibleSource new)) in
  update_sources_from_target SOURCES HOSTS new _ctx
  = (inr merged, persisted SOURCES merged src tgt _ctx).
Proof.
  intros Hview merged.
  unfold update_sources_from_target, bind, set_source_property, ctx_source.
  rewrite Hview. reflexivity.
Qed.

Lemma cleanup_sources_from_target_run (new : value) (_ctx : context)
    (src tgt : subject) :
  ctx_view _ctx = RELATIONSHIP_INSTANCE src tgt ->
  let removed :=
    config (remove_source HOSTS
              (mkAnsibleSource (current_document SOURCES src))
              (mkAnsibleSource new)) in
  cleanup_sources_from_target SOURCES HOSTS new _ctx
  = (inr removed, persisted SOURCES removed src tgt _ctx).
Proof.
  intros Hview removed.
  unfold cleanup_sources_from_target, bind, set_source_property,
    ctx_source.
  rewrite Hview. reflexivity.
Qed.

Lemma update_sources_from_target_outside (new : value) (_ctx : context)
    (self : subject) :
  ctx_view _ctx = NODE_INSTANCE self ->
  update_sources_from_target SOURCES HOSTS new _ctx
  = (inl ContextError, _ctx).
Proof.
  intros Hview. unfold update_sources_from_target, bind, ctx_source.
  rewrite Hview. reflexivity.
Qed.

Lemma current_document_persisted (doc : value) (src : subject) :
  current_document SOURCES
    (set_runtime_properties
       (<[SOURCES := doc]> (runtime_properties (s_instance src))) src)
  = doc.
Proof.
  unfold current_document, set_runtime_properties. simpl.
  rewrite lookup_insert_eq. reflexivity.
Qed.

Lemma mk_config (A : AnsibleSource) : mkAnsibleSource (config A) = A.
Proof. destruct A. reflexivity. Qed.

Lemma persisted_persisted (doc doc' : value) (src tgt : subject)
    (_ctx : context) :
  persisted SOURCES doc'
    (set_runtime_properties
       (<[SOURCES := doc]> (runtime_properties (s_instance src))) src)
    tgt (persisted SOURCES doc src tgt _ctx)
  = persisted SOURCES doc' src tgt _ctx.
Proof.
  unfold persisted, set_view, set_runtime_properties. simpl.
  rewrite insert_insert_eq. reflexivity.
Qed.

(** What merging the document [b] into the document [a] gives at the group
    [g], by the three cases of the specification. *)
Lemma merge_source_lookup (a b : gmap string value) (g : string) :
  exists doc,
    config (merge_source HOSTS (mkAnsibleSource (VDict a))
              (mkAnsibleSource (VDict b))) = VDict doc
    /\ doc !! g
       = match a !! g, b !! g with
         | None, theirs => theirs
         | Some mine, None => Some mine
         | Some mine, Some theirs => Some (merge_group HOSTS mine theirs)
         end.
Proof.
  eexists. split; [reflexivity |]. rewrite lookup_union_with.
  destruct (a !! g), (b !! g); reflexivity.
Qed.

Lemma merge_group_hosts (ga gb ha hb : gmap string value) (host : string) :
  ga !! HOSTS = Some (VDict ha) -> gb !! HOSTS = Some (VDict hb) ->
  merge_group HOSTS (VDict ga) (VDict gb)
  = VDict (<[HOSTS := VDict (hb ∪ ha)]> ga)
  /\ (hb ∪ ha) !! host
     = match hb !! host with Some v => Some v | None => ha !! host end.
Proof.
  intros Ha Hb. simpl. rewrite Ha, Hb. split; [reflexivity |].
  rewrite lookup_union. destruct (hb !! host), (ha !! host); reflexivity.
Qed.

(** C2. Merging [B] into [A] and then [B] again gives what merging [B]
    once gives, for all source documents [A] and [B]; merging inserts a
    group of [B] that [A] lacks as it is and, for a group in both, unions
    the [hosts] mappings, the entries of [B] overwriting the same-named
    entries of [A].  So for the accumulator: after
    [update_sources_from_target] has merged a fragment into the persisted
    document, merging the same fragment again returns the same document and
    leaves the context as it is. *)
Theorem merge_idempotent (A B : AnsibleSource) (new : value)
    (_ctx : context) (a b : gmap string value) (g : string) :
  merge_source HOSTS (merge_source HOSTS A B) B = merge_source HOSTS A B
  /\ config (merge_source HOSTS (merge_source HOSTS A B) B)
     = config (merge_source HOSTS A B)
  /\ (let once := update_sources_from_target SOURCES HOSTS new _ctx in
      update_sources_from_target SOURCES HOSTS new once.2 = once)
  /\ (exists doc,
        config (merge_source HOSTS (mkAnsibleSource (VDict a))
                  (mkAnsibleSource (VDict b))) = VDict doc
        /\ doc !! g
           = match a !! g, b !! g with
             | None, theirs => theirs
             | Some mine, None => Some mine
             | Some mine, Some theirs => Some (merge_group HOSTS mine theirs)
             end)
  /\ (forall ga gb ha hb host,
        ga !! HOSTS = Some (VDict ha) -> gb !! HOSTS = Some (VDict hb) ->
        merge_group HOSTS (VDict ga) (VDict gb)
        = VDict (<[HOSTS := VDict (hb ∪ ha)]> ga)
        /\ (hb ∪ ha) !! host
           = match hb !! host with
             | Some v => Some v
             | None => ha !! host
             end).
Proof.
  split; [apply merge_source_twice |].
  split; [rewrite merge_source_twice; reflexivity |].
  split; [| split; [apply merge_source_lookup | apply merge_group_hosts]].
  destruct (ctx_view _ctx) as [self | src tgt] eqn:Hview.
  - rewrite (update_sources_from_target_outside _ _ self Hview).
    apply (update_sources_from_target_outside _ _ self Hview).
  - rewrite (update_sources_from_target_run _ _ src tgt Hview).
    cbn [snd].
    erewrite (update_sources_from_target_run new
                (persisted SOURCES _ src tgt _ctx));
      [| reflexivity].
    rewrite current_document_persisted, mk_config.
    rewrite merge_source_twice, persisted_persisted. reflexivity.
Qed.

(** C7. In a relationship context, [update_sources_from_target] reads the
    document persisted on the source-side instance under [SOURCES] (the
    empty document when the key is absent), merges the fragment into it,
    writes the result back under the same key and returns it;
    [cleanup_sources_from_target] does the same with the fragment
    subtracted. *)
Theorem accumulator_spec (new : value) (_ctx : context)
    (src tgt : subject) :
  ctx_view _ctx = RELATIONSHIP_INSTANCE src tgt ->
  let current := current_document SOURCES src in
  let merged :=
    config (merge_source HOSTS (mkAnsibleSource current)
              (mkAnsibleSource new)) in
  let removed :=
    config (remove_source HOSTS (mkAnsibleSource current)
              (mkAnsibleSource new)) in
  update_sources_from_target SOURCES HOSTS new _ctx
    = (inr merged, persisted SOURCES merged src tgt _ctx)
  /\ cleanup_sources_from_target SOURCES HOSTS new _ctx
     = (inr removed, persisted SOURCES removed src tgt _ctx)
  /\ runtime_properties
       (s_instance (_get_subject (persisted SOURCES merged src tgt _ctx)))
     = <[SOURCES := merged]> (runtime_properties (s_instance src))
  /\ runtime_properties
       (s_instance (_get_subject (persisted SOURCES removed src tgt _ctx)))
     = <[SOURCES := removed]> (runtime_properties (s_instance src)).
Proof.
  intros Hview current merged removed.
  split; [apply update_sources_from_target_run, Hview |].
  split; [apply cleanup_sources_from_target_run, Hview |].
  split; reflexivity.
Qed.

End Documents.

(** *** Group name and hostname *)

Lemma truthy_str_supplied (o : option string) :
  truthy_str o = true <-> supplied o.
Proof.
  unfold supplied. destruct o as [s|]; simpl.
  - rewrite negb_true_iff. split.
    + intros H. exists s. split; [reflexivity |].
      apply String.eqb_neq. exact H.
    + intros (s' & [= <-] & Hne). apply String.eqb_neq. exact Hne.
  - split; [discriminate |]. intros (s & [=] & _).
Qed.

Lemma truthy_str_not_supplied (o : option string) :
  truthy_str o = false <-> ~ supplied o.
Proof.
  rewrite <- truthy_str_supplied. destruct (truthy_str o); split;
    congruence.
Qed.

Lemma or_str_supplied (s dflt : string) :
  s <> "" -> or_str (Some s) dflt = s.
Proof.
  intros Hne. unfold or_str, truthy_str.
  apply String.eqb_neq in Hne. rewrite Hne. reflexivity.
Qed.

Lemma or_str_not_supplied (o : option string) (dflt : string) :
  ~ supplied o -> or_str o dflt = dflt.
Proof.
  intros H. apply truthy_str_not_supplied in H. unfold or_str.
  destruct o; [rewrite H |]; reflexivity.
Qed.

(** C3. [get_group_name_and_hostname] raises [NonRecoverableError] exactly
    when no group name override is supplied, no hostname override is
    supplied and ['cloudify.nodes.Compute'] is not in the node's type
    hierarchy, and it never raises anything else; in every other case it
    returns a pair.  In the pair returned, the group name is the override
    when one is supplied and the node's type otherwise, and the hostname is
    the override when one is supplied and the instance's id otherwise. *)
Theorem get_group_name_and_hostname_spec (_ctx : subject)
    (group_name hostname : option string) :
  let r := get_group_name_and_hostname _ctx group_name hostname in
  let invalid :=
    ~ supplied group_name /\ ~ supplied hostname /\
    COMPUTE ∉ type_hierarchy (s_node _ctx) in
  ((exists m, r = inl (NonRecoverableError m)) <-> invalid)
  /\ ((exists e, r = inl e) <-> invalid)
  /\ ((exists g h, r = inr (g, h)) <-> ~ invalid)
  /\ (forall g h,
        r = inr (g, h) ->
        (forall s, group_name = Some s -> s <> "" -> g = s)
        /\ (~ supplied group_name -> g = node_type (s_node _ctx))
        /\ (forall s, hostname = Some s -> s <> "" -> h = s)
        /\ (~ supplied hostname -> h = instance_id (s_instance _ctx))).
Proof.
  intros r invalid.
  assert (Hpair : forall g h,
            r = inr (g, h) ->
            (forall s, group_name = Some s -> s <> "" -> g = s)
            /\ (~ supplied group_name -> g = node_type (s_node _ctx))
            /\ (forall s, hostname = Some s -> s <> "" -> h = s)
            /\ (~ supplied hostname -> h = instance_id (s_instance _ctx))).
  { intros g h Hr. unfold r, get_group_name_and_hostname in Hr.
    destruct (_ && _); [discriminate Hr |]. injection Hr as <- <-.
    split; [| split; [| split]].
    - intros s -> Hne. apply or_str_supplied, Hne.
    - apply or_str_not_supplied.
    - intros s -> Hne. apply or_str_supplied, Hne.
    - apply or_str_not_supplied. }
  split; [| split; [| split; [| exact Hpair]]];
    unfold r, invalid, get_group_name_and_hostname;
    rewrite <- !truthy_str_not_supplied;
    destruct (truthy_str group_name), (truthy_str hostname);
    destruct (bool_decide_reflect (COMPUTE ∈ type_hierarchy (s_node _ctx)));
    simpl; settle_outcome; try tauto; try (eexists _, _; reflexivity).
Qed.

(** *** Playbook paths *)

Section Paths.

Context (BP_INCLUDES_PATH : string -> string -> string -> string).

Lemma handle_file_path_str (p : string) (_ctx : context) (st : os_state) :
  handle_file_path BP_INCLUDES_PATH (VStr p) _ctx st
  = if exists_str st (resolved BP_INCLUDES_PATH _ctx p)
    then inr (resolved BP_INCLUDES_PATH _ctx p)
    else inl (NonRecoverableError
                (Message "File path {0} does not exist."
                   [FValue (VStr (resolved BP_INCLUDES_PATH _ctx p))])).
Proof.
  unfold handle_file_path, resolved. destruct (is_local _ctx); reflexivity.
Qed.

Lemma handle_file_path_not_str (v : value) (_ctx : context)
    (st : os_state) :
  (forall p, v <> VStr p) ->
  handle_file_path BP_INCLUDES_PATH v _ctx st
  = inl (NonRecoverableError
           (Message "The variable file_path {0} is a {1},expected a string."
              [FValue v; FType (type_of v)])).
Proof.
  intros H. destruct v; try reflexivity. exfalso. exact (H _ eq_refl).
Qed.

Lemma str_or_not (v : value) :
  (exists p, v = VStr p) \/ (forall p, v <> VStr p).
Proof.
  destruct v; try (right; intros p; discriminate).
  left. eexists. reflexivity.
Qed.

(** C8. [handle_file_path] raises [NonRecoverableError] exactly when
    [file_path] is not a string or the resolved path does not exist;
    otherwise it returns the resolved path, which exists.  It raises
    nothing else. *)
Theorem handle_file_path_spec (file_path : value) (_ctx : context)
    (st : os_state) (q : string) :
  let r := handle_file_path BP_INCLUDES_PATH file_path _ctx st in
  let invalid :=
    (forall p, file_path <> VStr p) \/
    (exists p, file_path = VStr p /\
               exists_str st (resolved BP_INCLUDES_PATH _ctx p) = false) in
  ((exists m, r = inl (NonRecoverableError m)) <-> invalid)
  /\ ((exists e, r = inl e) <-> invalid)
  /\ (r = inr q <->
      exists p, file_path = VStr p /\ q = resolved BP_INCLUDES_PATH _ctx p /\
                exists_str st q = true)
  /\ ((exists q', r = inr q') <-> ~ invalid).
Proof.
  intros r invalid. unfold r, invalid.
  destruct (str_or_not file_path) as [[p ->] | Hns].
  - rewrite handle_file_path_str.
    destruct (exists_str st (resolved BP_INCLUDES_PATH _ctx p)) eqn:Hex.
    + repeat split.
      * intros [m [=]].
      * intros [H | (p' & [= <-] & H)]; [destruct (H p eq_refl) |].
        congruence.
      * intros [e [=]].
      * intros [H | (p' & [= <-] & H)]; [destruct (H p eq_refl) |].
        congruence.
      * intros [= <-]. exists p. auto.
      * intros (p' & [= <-] & -> & _). reflexivity.
      * intros _ [H | (p' & [= <-] & H)]; [destruct (H p eq_refl) |].
        congruence.
      * intros _. eexists. reflexivity.
    + repeat split.
      * intros _. right. exists p. auto.
      * intros _. eexists. reflexivity.
      * intros _. right. exists p. auto.
      * intros _. eexists. reflexivity.
      * intros [=].
      * intros (p' & [= <-] & -> & H). congruence.
      * intros [q' [=]].
      * intros H. destruct H. right. exists p. auto.
  - rewrite (handle_file_path_not_str _ _ _ Hns).
    repeat split.
    + intros _. left. exact Hns.
    + intros _. eexists. reflexivity.
    + intros _. left. exact Hns.
    + intros _. eexists. reflexivity.
    + intros [=].
    + intros (p & -> & _). destruct (Hns p eq_refl).
    + intros [q' [=]].
    + intros H. destruct H. left. exact Hns.
Qed.

End Paths.

(** *** Environment variables *)

Section Environ.

Implicit Types (env : environ) (l : list (string * string)).

(** The two loops, on the list of items they go through. *)
Lemma assign_loop l env :
  foldr (fun kv rest =>
           bind (modify (insert kv.1 kv.2)) (fun _ : unit => rest))
    (ret tt) l env
  = (inr tt, foldl (fun e kv => <[kv.1 := kv.2]> e) env l).
Proof.
  revert env. induction l as [|[k v] l IH]; intros env; [reflexivity |].
  simpl. unfold bind at 1. simpl. apply IH.
Qed.

Lemma foldl_insert_union l env :
  NoDup l.*1 ->
  foldl (fun e kv => <[kv.1 := kv.2]> e) env l = list_to_map l ∪ env.
Proof.
  revert env. induction l as [|[k v] l IH]; intros env Hnd; simpl.
  - rewrite (left_id_L ∅ (∪)). reflexivity.
  - apply NoDup_cons in Hnd as [Hk Hnd]. rewrite (IH _ Hnd).
    rewrite <- insert_union_l. apply eq_sym, insert_union_r.
    apply not_elem_of_list_to_map_1. exact Hk.
Qed.

Lemma unassign_loop l env :
  NoDup l.*1 ->
  (forall k, k ∈ l.*1 -> is_Some (env !! k)) ->
  foldr (fun kv rest => bind (del_environ kv.1) (fun _ : unit => rest))
    (ret tt) l env
  = (inr tt, foldl (fun e kv => delete kv.1 e) env l).
Proof.
  revert env. induction l as [|[k v] l IH]; intros env Hnd Hin;
    [reflexivity |].
  apply NoDup_cons in Hnd as [Hk Hnd]. simpl. unfold bind at 1.
  unfold del_environ at 1.
  destruct (Hin k) as [x Hx]; [left |]. simpl in Hx. rewrite Hx. simpl.
  apply IH; [exact Hnd |]. intros k' Hk'.
  rewrite lookup_delete_ne; [apply Hin; right; exact Hk' |].
  intros ->. contradiction.
Qed.

Lemma foldl_delete_lookup l env k :
  foldl (fun e kv => delete kv.1 e) env l !! k
  = if decide (k ∈ l.*1) then None else env !! k.
Proof.
  revert env. induction l as [|[k0 v0] l IH]; intros env; simpl.
  - destruct (decide (k ∈ [])) as [H|_]; [inversion H | reflexivity].
  - rewrite IH. destruct (decide (k ∈ l.*1)) as [Hin|Hnin].
    + rewrite decide_True; [reflexivity | right; exact Hin].
    + destruct (decide (k = k0)) as [->|Hne].
      * rewrite lookup_delete_eq, decide_True; [reflexivity | left].
      * rewrite lookup_delete_ne by congruence.
        rewrite decide_False; [reflexivity |].
        intros [->|H]%elem_of_cons; contradiction.
Qed.

Lemma assign_environ_run (_vars : gmap string string) env :
  assign_environ _vars env = (inr tt, _vars ∪ env).
Proof.
  unfold assign_environ, for_items. rewrite assign_loop.
  rewrite foldl_insert_union by apply NoDup_fst_map_to_list.
  rewrite list_to_map_to_list. reflexivity.
Qed.

Lemma unassign_environ_run (_vars : gmap string string) env :
  (forall k, is_Some (_vars !! k) -> is_Some (env !! k)) ->
  unassign_environ _vars env = (inr tt, env ∖ _vars).
Proof.
  intros Hin. unfold unassign_environ, for_items.
  assert (Hkeys : forall k,
            k ∈ (map_to_list _vars).*1 <-> is_Some (_vars !! k)).
  { intros k. rewrite list_elem_of_fmap. split.
    - intros ([k' v] & -> & H%elem_of_map_to_list). eauto.
    - intros [v Hv]. exists (k, v). split; [reflexivity |].
      apply elem_of_map_to_list. exact Hv. }
  rewrite unassign_loop.
  - f_equal. apply map_eq. intros k.
    rewrite foldl_delete_lookup, lookup_difference.
    destruct (decide (k ∈ (map_to_list _vars).*1)) as [H|H].
    + apply Hkeys in H as [v ->]. reflexivity.
    + destruct (_vars !! k) eqn:Hv; [| reflexivity].
      exfalso. apply H, Hkeys. eauto.
  - apply NoDup_fst_map_to_list.
  - intros k Hk. apply Hin, Hkeys, Hk.
Qed.

(** C9, as the code has it. For every map [V] of environment variables,
    [assign_environ(V)] followed by [unassign_environ(V)] succeeds, removes
    exactly the keys of [V] from the environment and leaves every entry
    whose key is not in [V] unchanged.  The environment is back in its
    state before the two calls exactly when no key of [V] was set before:
    a variable that was already set is deleted, not restored. *)
Theorem assign_unassign_environ (_vars : gmap string string) env :
  let assigned := assign_environ _vars env in
  let final := unassign_environ _vars assigned.2 in
  assigned = (inr tt, _vars ∪ env)
  /\ final = (inr tt, env ∖ _vars)
  /\ (forall k, final.2 !! k
                = match _vars !! k with
                  | Some _ => None
                  | None => env !! k
                  end)
  /\ (final.2 = env <-> dom _vars ## dom env).
Proof.
  intros assigned final.
  assert (Ha : assigned = (inr tt, _vars ∪ env)) by apply assign_environ_run.
  assert (Hf : final = (inr tt, env ∖ _vars)).
  { unfold final. rewrite Ha. cbn [snd].
    rewrite unassign_environ_run.
    - f_equal. apply map_eq. intros k.
      rewrite !lookup_difference, lookup_union.
      destruct (_vars !! k), (env !! k); reflexivity.
    - intros k [v Hv]. exists v. apply lookup_union_Some_l. exact Hv. }
  split; [exact Ha |]. split; [exact Hf |]. rewrite Hf. cbn [snd].
  split; [intros k; apply lookup_difference |].
  split.
  - intros Heq. apply elem_of_disjoint. intros k Hv He.
    apply elem_of_dom in Hv as [v Hv]. apply elem_of_dom in He as [e He].
    apply (f_equal (fun m => m !! k)) in Heq.
    rewrite lookup_difference, Hv, He in Heq. discriminate.
  - intros Hdisj. apply map_eq. intros k. rewrite lookup_difference.
    destruct (_vars !! k) eqn:Hv; [| reflexivity].
    destruct (env !! k) eqn:He; [| reflexivity].
    exfalso. apply (proj1 (elem_of_disjoint _ _) Hdisj k);
      apply elem_of_dom; eauto.
Qed.

End Environ.

(** C9, as stated, fails: a variable that was set before [assign_environ]
    overwrote it is gone after [unassign_environ], so the environment is not
    restored. *)
Lemma assign_unassign_environ_not_restored :
  let env : environ := {["ANSIBLE_CONFIG" := "/etc/ansible/ansible.cfg"]} in
  let _vars : gmap string string :=
    {["ANSIBLE_CONFIG" := "/tmp/ansible.cfg"]} in
  (unassign_environ _vars (assign_environ _vars env).2).1 = inr tt
  /\ (unassign_environ _vars (assign_environ _vars env).2).2
       !! "ANSIBLE_CONFIG" = None
  /\ env !! "ANSIBLE_CONFIG" = Some "/etc/ansible/ansible.cfg"
  /\ (unassign_environ _vars (assign_environ _vars env).2).2 <> env.
Proof.
  cbv zeta. split; [vm_compute; reflexivity |].
  split; [vm_compute; reflexivity |].
  split; [vm_compute; reflexivity |].
  intros H. apply (f_equal (fun m => m !! "ANSIBLE_CONFIG")) in H.
  vm_compute in H. discriminate H.
Qed.

(** *** The context-to-source translator *)

Section Translator.

Context (SOURCES HOSTS : string).


Lemma lookup_add_additional_groups (hostname : string) (l : list string)
    (sources : gmap string value) (k : string) :
  add_additional_groups HOSTS hostname l sources !! k
  = if decide (k ∈ l) then Some (group_of HOSTS hostname VNone)
    else sources !! k.
Proof.
  revert sources. unfold add_additional_groups.
  induction l as [|a l IH]; intros sources; simpl.
  - destruct (decide (k ∈ [])) as [H|_]; [inversion H | reflexivity].
  - rewrite IH. destruct (decide (k ∈ l)) as [Hin|Hnin].
    + rewrite decide_True; [reflexivity | right; exact Hin].
    + destruct (decide (k = a)) as [->|Hne].
      * rewrite lookup_insert_eq, decide_True; [reflexivity | left].
      * rewrite lookup_insert_ne by congruence.
        rewrite decide_False; [reflexivity |].
        intros [->|H]%elem_of_cons; contradiction.
Qed.

Lemma source_config_from_run (rest : rest_client) (subj : subject)
    (node_name : string) (group_name hostname : option string)
    (host_config : option (gmap string value))
    (sources hc : gmap string value) (g h : string) (present : bool)
    (_ctx : context) :
  host_config_or_derived host_config subj = inr hc ->
  get_group_name_and_hostname subj group_name hostname = inr (g, h) ->
  contains (dict_get_default hc "ansible_ssh_common_args" (VStr "")) STRICT
    = inr present ->
  source_config_from HOSTS rest subj node_name group_name hostname
    host_config sources _ctx
  = (inr (VDict
            (add_additional_groups HOSTS h
               (get_additional_node_groups rest node_name
                  (deployment_id _ctx))
               (<[g := group_of HOSTS h (VDict hc)]> sources))),
     warned present _ctx).
Proof.
  intros Hhc Hnames Hpresent.
  unfold source_config_from, bind, lift, get_state.
  rewrite Hhc, Hnames. cbn [fst snd]. rewrite Hpresent.
  destruct present; reflexivity.
Qed.

Lemma elem_of_get_additional_node_groups (rest : rest_client)
    (node_name deployment_id a : string) :
  a ∈ get_additional_node_groups rest node_name deployment_id
  <-> exists client grp,
        rest = Some client /\
        default ∅ (groups (client deployment_id)) !! a = Some grp /\
        node_name ∈ default [] (members grp) /\ a <> "".
Proof.
  unfold get_additional_node_groups. destruct rest as [client|].
  - set (m := default ∅ (groups (client deployment_id))).
    assert (Hgen : forall l acc,
      a ∈ foldl
            (fun acc kv =>
               if bool_decide (node_name ∈ default [] (members kv.2)) &&
                  truthy_str (Some kv.1)
               then (acc ++ [kv.1])%list else acc) acc l
      <-> a ∈ acc \/
          exists grp, (a, grp) ∈ l /\
                      node_name ∈ default [] (members grp) /\ a <> "").
    { induction l as [|[k grp] l IH]; intros acc; simpl.
      - split; [auto |]. intros [H | (grp & H & _)]; [exact H |].
        inversion H.
      - rewrite IH. simpl.
        destruct (bool_decide_reflect
                    (node_name ∈ default [] (members grp))) as [Hm|Hm];
          simpl.
        + destruct (String.eqb_spec k "") as [->|Hk]; simpl.
          * split.
            -- intros [H | (grp' & H & H')]; [auto |].
               right. exists grp'. split; [right; exact H | exact H'].
            -- intros [H | (grp' & H & Hm' & Hne)]; [auto |].
               apply elem_of_cons in H as [[= -> ->] | H];
                 [contradiction |].
               right. exists grp'. auto.
          * rewrite elem_of_app, list_elem_of_singleton. split.
            -- intros [[H | ->] | (grp' & H & H')]; [auto | |].
               ++ right. exists grp. split; [left | auto].
               ++ right. exists grp'. split; [right; exact H | exact H'].
            -- intros [H | (grp' & H & Hm' & Hne)]; [auto |].
               apply elem_of_cons in H as [[= -> ->] | H]; [auto |].
               right. exists grp'. auto.
        + split.
          * intros [H | (grp' & H & H')]; [auto |].
            right. exists grp'. split; [right; exact H | exact H'].
          * intros [H | (grp' & H & Hm' & Hne)]; [auto |].
            apply elem_of_cons in H as [[= -> ->] | H];
              [contradiction |].
            right. exists grp'. auto. }
    rewrite Hgen. split.
    + intros [H | (grp & H & Hm & Hne)]; [inversion H |].
      exists client, grp. apply elem_of_map_to_list in H. auto.
    + intros (client' & grp & [= <-] & H & Hm & Hne).
      right. exists grp. split; [| auto].
      apply elem_of_map_to_list. exact H.
  - split; [intros H; inversion H |]. intros (? & ? & [=] & _).
Qed.

Lemma get_source_config_from_ctx_translated (rest : rest_client)
    (group_name hostname : option string)
    (host_config sources : option (gmap string value)) (_ctx : context)
    (subj : subject) :
  translated_subject SOURCES _ctx = Some subj ->
  get_source_config_from_ctx SOURCES HOSTS rest group_name hostname
    host_config sources _ctx
  = source_config_from HOSTS rest subj (node_name (s_node subj)) group_name
      hostname host_config (or_dict sources ∅) _ctx.
Proof.
  unfold translated_subject, get_source_config_from_ctx, _get_node,
    _get_subject.
  destruct (ctx_view _ctx) as [self | src tgt].
  - destruct (negb (bool_decide (COMPUTE ∈ type_hierarchy (s_node self))) &&
              truthy (dict_get (runtime_properties (s_instance self))
                        SOURCES));
      [discriminate |].
    intros [= <-]. reflexivity.
  - intros [= <-]. reflexivity.
Qed.

(** C10. In a node-instance context whose node type hierarchy does not
    contain ['cloudify.nodes.Compute'] and whose runtime properties hold a
    non-empty document under [SOURCES], [get_source_config_from_ctx]
    returns that document as it is, whatever the [group_name], [hostname],
    [host_config] and [sources] arguments are; nothing is raised and the
    context is left as it was. *)
Theorem persisted_sources_returned (rest : rest_client)
    (group_name hostname : option string)
    (host_config sources : option (gmap string value))
    (_ctx : context) (self : subject) (doc : value) :
  ctx_view _ctx = NODE_INSTANCE self ->
  COMPUTE ∉ type_hierarchy (s_node self) ->
  runtime_properties (s_instance self) !! SOURCES = Some doc ->
  truthy doc = true ->
  get_source_config_from_ctx SOURCES HOSTS rest group_name hostname
    host_config sources _ctx
  = (inr doc, _ctx).
Proof.
  intros Hview Hcompute Hdoc Htruthy. unfold get_source_config_from_ctx.
  rewrite Hview. rewrite bool_decide_eq_false_2 by exact Hcompute.
  unfold dict_get. rewrite Hdoc. simpl. rewrite Htruthy. reflexivity.
Qed.


(** C4, as the code has it. In a relationship context the host
    configuration (unless the caller gives one), the group name, the
    hostname and the auxiliary deployment groups all come from the target
    side.  When no auxiliary group has the resolved group name, the
    returned document maps the group name to [{hosts: {hostname:
    host_config}}], each auxiliary group to [{hosts: {hostname: null}}],
    and every other name to what the caller's [sources] document holds
    there (nothing when no [sources] are given).  The auxiliary groups are
    the non-empty names of the deployment's groups that have the target
    node's name among their members. *)
Theorem source_config_relationship (rest : rest_client) (_ctx : context)
    (src tgt : subject) (group_name hostname : option string)
    (host_config sources : option (gmap string value))
    (hc : gmap string value) (g h : string) (present : bool) :
  ctx_view _ctx = RELATIONSHIP_INSTANCE src tgt ->
  host_config_or_derived host_config tgt = inr hc ->
  get_group_name_and_hostname tgt group_name hostname = inr (g, h) ->
  contains (dict_get_default hc "ansible_ssh_common_args" (VStr "")) STRICT
    = inr present ->
  let aux :=
    get_additional_node_groups rest (node_name (s_node tgt))
      (deployment_id _ctx) in
  g ∉ aux ->
  exists doc,
    get_source_config_from_ctx SOURCES HOSTS rest group_name hostname
      host_config sources _ctx
    = (inr (VDict doc), warned present _ctx)
    /\ (forall k,
          doc !! k
          = if decide (k = g)
            then Some (VDict {[HOSTS := VDict {[h := VDict hc]}]})
            else if decide (k ∈ aux)
                 then Some (VDict {[HOSTS := VDict {[h := VNone]}]})
                 else match sources with
                      | Some given => given !! k
                      | None => None
                      end)
    /\ (forall a,
          a ∈ aux
          <-> exists client grp,
                rest = Some client /\
                default ∅ (groups (client (deployment_id _ctx))) !! a
                  = Some grp /\
                node_name (s_node tgt) ∈ default [] (members grp) /\
                a <> "").
Proof.
  intros Hview Hhc Hnames Hpresent aux Hfresh.
  eexists. split; [| split].
  - unfold get_source_config_from_ctx. rewrite Hview.
    apply (source_config_from_run _ _ _ _ _ _ _ hc g h present);
      assumption.
  - intros k. rewrite lookup_add_additional_groups. fold aux.
    destruct (decide (k = g)) as [->|Hne].
    + rewrite decide_False by exact Hfresh. apply lookup_insert_eq.
    + destruct (decide (k ∈ aux)); [reflexivity |].
      rewrite lookup_insert_ne by congruence.
      unfold or_dict, truthy_dict. destruct sources as [given|].
      * destruct (bool_decide_reflect (given = ∅)) as [->|_];
          [apply lookup_empty | reflexivity].
      * apply lookup_empty.
  - intros a. apply elem_of_get_additional_node_groups.
Qed.

End Translator.

(** *** Private key material *)

Section KeyData.

Implicit Types (st : os_state) (d cur : gmap string value).

Lemma grows_refl st : grows st st.
Proof. intros p H. exact H. Qed.

Lemma grows_trans st1 st2 st3 : grows st1 st2 -> grows st2 st3 -> grows st1 st3.
Proof. intros H12 H23 p H. apply H23, H12, H. Qed.

Lemma exists_str_insert st p q node :
  exists_str (set_files (insert q node) st) p
  = bool_decide (p = q) || exists_str st p.
Proof.
  unfold exists_str, set_files. simpl.
  destruct (decide (p = q)) as [->|Hne].
  - rewrite lookup_insert_eq, bool_decide_eq_true_2 by eauto.
    rewrite (bool_decide_eq_true_2 (q = q)) by reflexivity. reflexivity.
  - rewrite lookup_insert_ne by congruence.
    rewrite (bool_decide_eq_false_2 (p = q)) by exact Hne. reflexivity.
Qed.

Lemma grows_key_file_written p data st : grows st (key_file_written p data st).
Proof.
  intros q H. unfold exists_str, key_file_written in *. simpl.
  apply bool_decide_eq_true. apply bool_decide_eq_true in H.
  destruct (decide (q = p)) as [->|Hne].
  - rewrite lookup_insert_eq. eauto.
  - rewrite lookup_insert_ne by congruence. exact H.
Qed.

Lemma exists_key_file_written p data st :
  exists_str (key_file_written p data st) p = true.
Proof.
  unfold exists_str, key_file_written. simpl.
  apply bool_decide_eq_true. rewrite lookup_insert_eq. eauto.
Qed.

(** The key data is already a path: nothing happens. *)
Lemma materialize_key_existing (workspace_dir k : string) d st :
  exists_str st k = true ->
  materialize_key workspace_dir d (VStr k) st = (inr d, st).
Proof.
  intros Hex. unfold materialize_key, bind, try_except_TypeError, path_exists.
  rewrite Hex. reflexivity.
Qed.

(** The key data is inline: it goes to a new file of mode [0600] and the
    entry is replaced by the path of that file. *)
Lemma materialize_key_inline (workspace_dir k : string) d st :
  exists_str st k = false ->
  writable st (next_key_file workspace_dir st) = true ->
  files st !! next_key_file workspace_dir st <> Some Dir ->
  materialize_key workspace_dir d (VStr k) st
  = (inr (<[KEY_FILE := VStr (next_key_file workspace_dir st)]> d),
     key_file_written (next_key_file workspace_dir st) k st).
Proof.
  intros Hex Hw Hdir.
  unfold materialize_key, bind, try_except_TypeError, path_exists.
  rewrite Hex. simpl. unfold uuid1, open_w. simpl.
  fold (next_key_file workspace_dir st). rewrite Hw.
  set (p := next_key_file workspace_dir st) in *.
  destruct (files st !! p) as [[c m|]|] eqn:Hp; [| contradiction |].
  - unfold write, chmod, set_files. simpl.
    rewrite lookup_insert_eq. simpl. rewrite lookup_insert_eq.
    unfold key_file_written, ret. simpl.
    rewrite !insert_insert_eq. reflexivity.
  - unfold write, chmod, set_files. simpl.
    rewrite lookup_insert_eq. simpl. rewrite lookup_insert_eq.
    unfold key_file_written, ret. simpl.
    rewrite !insert_insert_eq. reflexivity.
Qed.

(** The key data is not a string: [os.path.exists] raises [TypeError],
    which is caught, and [outfile.write] raises it again. *)
Lemma materialize_key_not_str (workspace_dir : string) d (key_data : value)
    st :
  (forall k, key_data <> VStr k) ->
  exists e st', materialize_key workspace_dir d key_data st = (inl e, st').
Proof.
  intros Hns.
  unfold materialize_key, bind, try_except_TypeError, path_exists.
  destruct key_data as [| | |k| |]; try (destruct (Hns k eq_refl)); simpl;
    unfold open_w; simpl;
    destruct (writable st _); try (eexists _, _; reflexivity);
    destruct (files st !! _) as [[c m|]|];
    simpl; eexists _, _; reflexivity.
Qed.

Lemma handle_key_data_entry (workspace_dir : string) d (key_data : value) :
  d !! KEY_FILE = Some key_data ->
  handle_key_data d workspace_dir = materialize_key workspace_dir d key_data.
Proof.
  intros Hkey. unfold handle_key_data. simpl. rewrite Hkey. reflexivity.
Qed.

(** **** Nested dictionaries *)

Lemma depth_lookup d (k : string) (v : value) :
  d !! k = Some v -> (depth v < depth (VDict d))%nat.
Proof.
  intros H. simpl. rewrite map_fold_foldr. apply elem_of_map_to_list in H.
  induction (map_to_list d) as [|[k' v'] l IH]; [inversion H |].
  simpl. apply elem_of_cons in H as [[= <- <-] | H]; [lia |].
  specialize (IH H). lia.
Qed.

(** Induction on a value through the items of its dictionaries. *)
Lemma value_nested_ind (P : value -> Prop) :
  (forall v,
     (forall d (k : string) v', v = VDict d -> d !! k = Some v' -> P v') ->
     P v) ->
  forall v, P v.
Proof.
  intros step v. remember (depth v) as n eqn:Hn. revert v Hn.
  induction n as [n IH] using lt_wf_ind. intros v ->.
  apply step. intros d k v' -> Hk.
  apply (IH (depth v')); [apply (depth_lookup d k), Hk | reflexivity].
Qed.

Lemma settled_key st d (kv : value) :
  d !! KEY_FILE = Some kv ->
  settled st (VDict d) <-> exists p, kv = VStr p /\ exists_str st p = true.
Proof.
  intros Hk. simpl. rewrite Hk.
  destruct kv as [| | |q| |];
    try (split; [contradiction | intros (p & Hp & _); discriminate Hp]).
  split.
  - intros H. eauto.
  - intros (p & [= <-] & H). exact H.
Qed.

Lemma settled_no_key st d :
  d !! KEY_FILE = None ->
  settled st (VDict d)
  <-> forall (k : string) v, d !! k = Some v -> settled st v.
Proof.
  intros Hk. simpl. rewrite Hk, map_fold_foldr.
  transitivity (forall k v, (k, v) ∈ map_to_list d -> settled st v).
  - induction (map_to_list d) as [|[k' v'] l IH]; simpl.
    + split; [intros _ k v H; inversion H | auto].
    + rewrite IH. split.
      * intros [Hv Hl] k v [[= -> ->] | H]%elem_of_cons; eauto.
      * intros H. split; [apply (H k'); left |].
        intros k v Hin. apply (H k). right. exact Hin.
  - split; intros H k v Hv; apply (H k), elem_of_map_to_list, Hv.
Qed.

Lemma settled_grows (v : value) st st' :
  grows st st' -> settled st v -> settled st' v.
Proof.
  revert st st'. induction v as [v IH] using value_nested_ind.
  intros st st' Hg Hs. destruct v as [| | | | |d]; try exact I.
  destruct (d !! KEY_FILE) as [kv|] eqn:Hk.
  - destruct (proj1 (settled_key _ _ _ Hk) Hs) as (p & Hkv & Hp).
    apply (settled_key _ _ _ Hk). eauto.
  - apply (settled_no_key _ _ Hk). intros k v Hv.
    apply (IH d k v eq_refl Hv st st' Hg).
    apply (proj1 (settled_no_key _ _ Hk) Hs k). exact Hv.
Qed.

Lemma recurse_dictionary_no_key (workspace_dir : string) d :
  d !! KEY_FILE = None ->
  recurse_dictionary workspace_dir (VDict d)
  = key_loop (recurse_dictionary workspace_dir) (map_to_list d) d.
Proof.
  intros Hk. unfold key_loop. rewrite <- map_fold_foldr.
  simpl. rewrite Hk. reflexivity.
Qed.

(** A dictionary whose key-file entries are all paths that exist is
    returned as it is, and nothing is written. *)
Lemma recurse_dictionary_settled (workspace_dir : string) (v : value) :
  forall st d,
    v = VDict d -> settled st v ->
    recurse_dictionary workspace_dir v st = (inr d, st).
Proof.
  induction v as [v IH] using value_nested_ind. intros st d -> Hs.
  destruct (d !! KEY_FILE) as [kv|] eqn:Hk.
  - destruct (proj1 (settled_key _ _ _ Hk) Hs) as (p & Hkv & Hp). subst kv.
    simpl. rewrite Hk. apply materialize_key_existing, Hp.
  - rewrite (recurse_dictionary_no_key _ _ Hk).
    pose proof (proj1 (settled_no_key _ _ Hk) Hs) as Hitems.
    assert (Hloop : forall l cur,
      (forall k v, (k, v) ∈ l -> d !! k = Some v /\ cur !! k = Some v) ->
      key_loop (recurse_dictionary workspace_dir) l cur st = (inr cur, st)).
    { induction l as [|[k v] l IHl]; intros cur Hl; [reflexivity |].
      destruct (Hl k v) as [Hd Hcur]; [left |].
      assert (Hrest : key_loop (recurse_dictionary workspace_dir) l cur st
                      = (inr cur, st)).
      { apply IHl. intros k' v' Hin. apply Hl. right. exact Hin. }
      unfold key_loop in *. simpl.
      destruct v as [| | | | |dv]; try exact Hrest.
      unfold bind at 1.
      rewrite (IH d k (VDict dv) eq_refl Hd st dv eq_refl (Hitems _ _ Hd)).
      rewrite insert_id by exact Hcur. exact Hrest. }
    apply Hloop. intros k v Hin. apply elem_of_map_to_list in Hin. auto.
Qed.

(** A call that returns has either found the path or written the file. *)
Lemma materialize_key_inv (workspace_dir : string) d (kv : value)
    st d' st' :
  materialize_key workspace_dir d kv st = (inr d', st') ->
  exists k,
    kv = VStr k /\
    let p := next_key_file workspace_dir st in
    d' = (if exists_str st k then d else <[KEY_FILE := VStr p]> d) /\
    st' = (if exists_str st k then st else key_file_written p k st).
Proof.
  intros Hrun. destruct (str_or_not kv) as [[k ->] | Hns].
  - exists k. split; [reflexivity |]. cbv zeta.
    destruct (exists_str st k) eqn:Hex.
    + rewrite materialize_key_existing in Hrun by exact Hex.
      injection Hrun as <- <-. split; reflexivity.
    + set (p := next_key_file workspace_dir st).
      assert (Hopen : writable st p = true /\ files st !! p <> Some Dir).
      { unfold materialize_key, bind, try_except_TypeError, path_exists,
          uuid1, open_w in Hrun.
        rewrite Hex in Hrun. simpl in Hrun.
        fold (next_key_file workspace_dir st) in Hrun. fold p in Hrun.
        destruct (writable st p); [| discriminate Hrun].
        split; [reflexivity |].
        destruct (files st !! p) as [[c m|]|];
          [discriminate | discriminate Hrun | discriminate]. }
      destruct Hopen as [Hw Hdir].
      rewrite materialize_key_inline in Hrun by assumption.
      injection Hrun as <- <-. split; reflexivity.
  - destruct (materialize_key_not_str workspace_dir d kv st Hns)
      as (e & st'' & He).
    rewrite He in Hrun. discriminate Hrun.
Qed.

Lemma materialize_key_success (workspace_dir : string) d (kv : value)
    st d' st' :
  d !! KEY_FILE = Some kv ->
  materialize_key workspace_dir d kv st = (inr d', st') ->
  settled st' (VDict d') /\ grows st st'.
Proof.
  intros Hk Hrun.
  destruct (materialize_key_inv _ _ _ _ _ _ Hrun) as (k & -> & Hd & Hst).
  cbv zeta in Hd, Hst. destruct (exists_str st k) eqn:Hex; subst d' st'.
  - split; [| apply grows_refl]. apply (settled_key _ _ _ Hk). eauto.
  - split; [| apply grows_key_file_written].
    eapply settled_key; [apply lookup_insert_eq |].
    eexists. split; [reflexivity |]. apply exists_key_file_written.
Qed.

(** What the loop leaves: the dictionary-valued items are replaced by
    dictionaries with nothing left to write, the others are kept. *)
Lemma key_loop_result (rec : value -> M os_state (gmap string value))
    (l : list (string * value)) :
  (forall k v st r st',
     (k, v) ∈ l -> rec v st = (inr r, st') ->
     settled st' (VDict r) /\ grows st st') ->
  NoDup l.*1 ->
  forall cur st d' st',
    key_loop rec l cur st = (inr d', st') ->
    grows st st'
    /\ (forall k, (forall dv, (k, VDict dv) ∉ l) -> d' !! k = cur !! k)
    /\ (forall k dv, (k, VDict dv) ∈ l ->
                     exists r, d' !! k = Some (VDict r) /\
                               settled st' (VDict r)).
Proof.
  induction l as [|[k0 v0] l IHl]; intros Hrec Hnd cur st d' st' Hrun.
  - injection Hrun as <- <-. split; [apply grows_refl |].
    split; [intros; reflexivity |]. intros k dv H. inversion H.
  - apply NoDup_cons in Hnd as [Hk0 Hnd].
    assert (Hrec' : forall k v st r st',
              (k, v) ∈ l -> rec v st = (inr r, st') ->
              settled st' (VDict r) /\ grows st st').
    { intros k v s r s' Hin. apply (Hrec k). right. exact Hin. }
    assert (Hfresh : forall dv, (k0, VDict dv) ∉ l).
    { intros dv Hin. apply Hk0. apply list_elem_of_fmap.
      exists (k0, VDict dv). auto. }
    assert (Hskip : forall cur0 st0,
              key_loop rec l cur0 st0 = (inr d', st') ->
              (forall dv, v0 <> VDict dv) ->
              grows st0 st'
              /\ (forall k, (forall dv, (k, VDict dv) ∉ (k0, v0) :: l) ->
                            d' !! k = cur0 !! k)
              /\ (forall k dv, (k, VDict dv) ∈ (k0, v0) :: l ->
                               exists r, d' !! k = Some (VDict r) /\
                                         settled st' (VDict r))).
    { intros cur0 st0 Hrest Hnd0.
      destruct (IHl Hrec' Hnd cur0 st0 d' st' Hrest) as (Hg & Hkeep & Hnew).
      split; [exact Hg |]. split.
      - intros k Hk. apply Hkeep. intros dv Hin. apply (Hk dv). right.
        exact Hin.
      - intros k dv [[= -> Hv] | Hin]%elem_of_cons;
          [destruct (Hnd0 dv (eq_sym Hv)) | eauto]. }
    unfold key_loop in Hrun. simpl in Hrun.
    fold (key_loop rec l) in Hrun.
    destruct v0 as [| | | | |dv0];
      try (apply (Hskip cur st Hrun); intros dv; discriminate).
    unfold bind in Hrun at 1.
    destruct (rec (VDict dv0) st) as [[e|r] st1] eqn:Hr;
      [discriminate Hrun |].
    destruct (Hrec k0 (VDict dv0) st r st1) as [Hsr Hg1];
      [left | exact Hr |].
    destruct (IHl Hrec' Hnd _ _ _ _ Hrun) as (Hg & Hkeep & Hnew).
    split; [exact (grows_trans _ _ _ Hg1 Hg) |]. split.
    + intros k Hk. rewrite Hkeep.
      * apply lookup_insert_ne. intros ->. apply (Hk dv0). left.
      * intros dv Hin. apply (Hk dv). right. exact Hin.
    + intros k dv [[= -> <-] | Hin]%elem_of_cons; [| eauto].
      exists r. split.
      * rewrite (Hkeep k0 Hfresh). apply lookup_insert_eq.
      * exact (settled_grows _ _ _ Hg Hsr).
Qed.

(** After a run that succeeds, nothing is left to write, and no file has
    disappeared. *)
Lemma recurse_dictionary_result (workspace_dir : string) (v : value) :
  forall d st d' st',
    v = VDict d ->
    recurse_dictionary workspace_dir v st = (inr d', st') ->
    settled st' (VDict d') /\ grows st st'.
Proof.
  induction v as [v IH] using value_nested_ind. intros d st d' st' -> Hrun.
  destruct (d !! KEY_FILE) as [kv|] eqn:Hk.
  - simpl in Hrun. rewrite Hk in Hrun.
    exact (materialize_key_success _ _ _ _ _ _ Hk Hrun).
  - rewrite (recurse_dictionary_no_key _ _ Hk) in Hrun.
    destruct (key_loop_result (recurse_dictionary workspace_dir)
                (map_to_list d)) with (cur := d) (st := st) (d' := d')
      (st' := st') as (Hg & Hkeep & Hnew).
    + intros k v s r s' Hin Hr. apply elem_of_map_to_list in Hin.
      destruct v as [| | | | |dv];
        try (simpl in Hr; unfold ret in Hr; injection Hr as <- <-;
             split; [| apply grows_refl];
             simpl; rewrite lookup_empty, map_fold_empty; exact I).
      exact (IH d k (VDict dv) eq_refl Hin dv s r s' eq_refl Hr).
    + apply NoDup_fst_map_to_list.
    + exact Hrun.
    + split; [| exact Hg].
      assert (Hk' : d' !! KEY_FILE = None).
      { rewrite Hkeep; [exact Hk |]. intros dv Hin.
        apply elem_of_map_to_list in Hin. congruence. }
      apply (settled_no_key _ _ Hk'). intros k v Hv.
      destruct (d !! k) as [[| | | | |dv]|] eqn:Hd;
        try (rewrite Hkeep in Hv;
             [ rewrite Hd in Hv; try discriminate Hv;
               injection Hv as <-; exact I
             | intros dv Hin; apply elem_of_map_to_list in Hin;
               congruence ]).
      destruct (Hnew k dv) as (r & Hr & Hs);
        [apply elem_of_map_to_list, Hd |].
      rewrite Hr in Hv. injection Hv as <-. exact Hs.
Qed.







End KeyData.

(** ** The sample deployment *)

(** Settles an equation between closed terms by evaluating both sides. *)
Ltac by_evaluation :=
  lazymatch goal with
  | |- ?x = _ => vm_cast_no_check (@eq_refl _ x)
  end.

(** *** The reconciler on the results of the specification *)

Example handle_result_failures :
  (handle_result {[ "failures" := VList [VStr "h1"]; "dark" := VList [] ]}
     false false Sample.node_instance).1
  = inl (NonRecoverableError
           (Message "These Ansible nodes failed: {0}"
              [FValue (VList [VStr "h1"])])).
Proof. vm_compute. reflexivity. Qed.

Example handle_result_dark :
  (handle_result {[ "failures" := VList []; "dark" := VList [VStr "h2"] ]}
     false false Sample.node_instance).1
  = inl (OperationRetry
           (Message "These Ansible nodes were dark: {0}"
              [FValue (VList [VStr "h2"])])).
Proof. vm_compute. reflexivity. Qed.

Example handle_result_dark_ignored :
  let result : gmap string value :=
    {[ "failures" := VList []; "dark" := VList [VStr "h2"] ]} in
  let out := handle_result result false true Sample.node_instance in
  out.1 = inr tt
  /\ runtime_properties (_get_instance out.2) !! "result"
     = Some (VDict result).
Proof. split; vm_compute; reflexivity. Qed.

(** Failures and dark hosts together, failures ignored: still a retry. *)
Example handle_result_failures_ignored :
  let result : gmap string value :=
    {[ "failures" := VList [VStr "h1"]; "dark" := VList [VStr "h2"] ]} in
  let out := handle_result result true false Sample.relationship in
  out.1 = inl (OperationRetry
                 (Message "These Ansible nodes were dark: {0}"
                    [FValue (VList [VStr "h2"])]))
  /\ runtime_properties (_get_instance out.2) !! "result"
     = Some (VDict result).
Proof. split; vm_compute; reflexivity. Qed.

(** *** The translator *)

(** The host configuration of the specification's example. *)
Example vm_host_config :
  get_host_config_from_compute_node Sample.vm
  = inr {[ "ansible_host" := VStr "10.0.0.5";
           "ansible_user" := VStr "ubuntu";
           "ansible_ssh_pass" := VNone;
           "ansible_ssh_private_key_file" := VNone;
           "ansible_ssh_common_args" := VStr "-o StrictHostKeyChecking=no";
           "ansible_become" := VBool true ]}.
Proof. by_evaluation. Qed.

(** A node that is not a compute node, with no override: no group name can
    be made up. *)
Example app_has_no_group_name :
  exists m,
    get_group_name_and_hostname Sample.app None None
    = inl (NonRecoverableError m).
Proof. eexists. vm_compute. reflexivity. Qed.

Example vm_group_name_and_hostname :
  get_group_name_and_hostname Sample.vm None None
  = inr ("cloudify.nodes.Compute", "vm_x7k2p1")
  /\ get_group_name_and_hostname Sample.app (Some "web") None
     = inr ("web", "app_q3m9z0").
Proof. split; vm_compute; reflexivity. Qed.

Lemma sample_not_compute :
  COMPUTE ∉ type_hierarchy (s_node Sample.app).
Proof.
  apply (proj1 (bool_decide_eq_false _)). vm_compute. reflexivity.
Defined.

Lemma persisted_sources_returned_witness :
  get_source_config_from_ctx "sources" "hosts" Sample.rest
    (Some "webservers") (Some "web") (Some Sample.caller_config)
    (Some Sample.inventory) Sample.node_instance
  = (inr (VDict Sample.app_sources), Sample.node_instance).
Proof.
  apply (persisted_sources_returned "sources" "hosts" Sample.rest
           (Some "webservers") (Some "web") (Some Sample.caller_config)
           (Some Sample.inventory) Sample.node_instance Sample.app
           (VDict Sample.app_sources)).
  - reflexivity.
  - exact sample_not_compute.
  - vm_compute. reflexivity.
  - vm_compute. reflexivity.
Defined.

Lemma accumulator_spec_witness :
  ctx_view Sample.relationship = RELATIONSHIP_INSTANCE Sample.app Sample.vm
  /\ update_sources_from_target "sources" "hosts" Sample.fragment
       Sample.relationship
     = (inr (config
               (merge_source "hosts"
                  (mkAnsibleSource (VDict Sample.app_sources))
                  (mkAnsibleSource Sample.fragment))),
        persisted "sources"
          (config
             (merge_source "hosts"
                (mkAnsibleSource (VDict Sample.app_sources))
                (mkAnsibleSource Sample.fragment)))
          Sample.app Sample.vm Sample.relationship).
Proof.
  split; [reflexivity |].
  exact (proj1 (accumulator_spec "sources" "hosts" Sample.fragment
                  Sample.relationship Sample.app Sample.vm eq_refl)).
Defined.

(** The merged document of the sample has both hosts in the group. *)
Example sample_merge :
  config (merge_source "hosts" (mkAnsibleSource (VDict Sample.app_sources))
            (mkAnsibleSource Sample.fragment))
  = VDict
      {[ "cloudify.nodes.Compute" :=
           VDict
             {[ "hosts" :=
                  VDict
                    {[ "vm_x7k2p1" :=
                         VDict {[ "ansible_host" := VStr "10.0.0.5" ]};
                       "db_h4c8w2" :=
                         VDict {[ "ansible_host" := VStr "10.0.0.6" ]} ]}
             ]} ]}.
Proof. vm_compute. reflexivity. Qed.

(** Subtracting the fragment again leaves the first host alone. *)
Example sample_remove :
  config (remove_source "hosts"
            (merge_source "hosts" (mkAnsibleSource (VDict Sample.app_sources))
               (mkAnsibleSource Sample.fragment))
            (mkAnsibleSource Sample.fragment))
  = VDict Sample.app_sources.
Proof. vm_compute. reflexivity. Qed.

(** Establishing the relationship of the sample: the fragment for [vm]
    joins what [app] holds. *)
Example sample_remerged :
  exists merged,
    (get_remerged_config_sources "sources" "hosts" None
       (Kwargs None (Some "web1") None) Sample.relationship).1
    = inr (VDict merged)
    /\ default VNone (merged !! "cloudify.nodes.Compute")
       = VDict
           {[ "hosts" :=
                VDict
                  {[ "vm_x7k2p1" :=
                       VDict {[ "ansible_host" := VStr "10.0.0.5" ]};
                     "web1" :=
                       VDict
                         (expected_host_config (VStr "10.0.0.5")
                            (VStr "ubuntu") VNone VNone (VBool true)) ]} ]}.
Proof. eexists. split; [vm_compute; reflexivity | by_evaluation]. Qed.



(** With the caller's configuration the host entry of the document is that
    configuration, and a warning has been logged. *)
Example sample_caller_config_kept :
  get_source_config_from_ctx "sources" "hosts" None None None
    (Some Sample.caller_config) None Sample.relationship
  = (inr (VDict
            {[ "cloudify.nodes.Compute" :=
                 VDict
                   {[ "hosts" :=
                        VDict {[ "vm_x7k2p1" := VDict Sample.caller_config ]}
                   ]} ]}),
     (log WARN STRICT_WARNING Sample.relationship).2).
Proof. by_evaluation. Qed.

Lemma sample_group_is_not_auxiliary :
  "cloudify.nodes.Compute"
  ∉ get_additional_node_groups Sample.rest (node_name (s_node Sample.vm))
      (deployment_id Sample.relationship).
Proof.
  apply (proj1 (bool_decide_eq_false _)). vm_compute. reflexivity.
Defined.

Lemma source_config_relationship_witness :
  exists doc,
    get_source_config_from_ctx "sources" "hosts" Sample.rest None None None
      None Sample.relationship
    = (inr (VDict doc), Sample.relationship)
    /\ doc !! "cloudify.nodes.Compute"
       = Some (VDict
                 {[ "hosts" :=
                      VDict
                        {[ "vm_x7k2p1" :=
                             VDict
                               (expected_host_config (VStr "10.0.0.5")
                                  (VStr "ubuntu") VNone VNone (VBool true))
                        ]} ]})
    /\ doc !! "webservers"
       = Some (VDict {[ "hosts" := VDict {[ "vm_x7k2p1" := VNone ]} ]})
    /\ doc !! "databases" = None.
Proof.
  destruct (source_config_relationship "sources" "hosts" Sample.rest
              Sample.relationship Sample.app Sample.vm None None None None
              (expected_host_config (VStr "10.0.0.5") (VStr "ubuntu") VNone
                 VNone (VBool true))
              "cloudify.nodes.Compute" "vm_x7k2p1" true)
    as (doc & Hrun & Hdoc & _).
  - reflexivity.
  - vm_compute. reflexivity.
  - vm_compute. reflexivity.
  - vm_compute. reflexivity.
  - exact sample_group_is_not_auxiliary.
  - exists doc. split; [exact Hrun |].
    rewrite !Hdoc. split; [| split]; by_evaluation.
Defined.

(** C4, as stated, fails: when an auxiliary group has the resolved group
    name, the entry written for the auxiliary group replaces the one that
    holds the host configuration. *)
Lemma source_config_auxiliary_group_collision :
  exists doc,
    get_source_config_from_ctx "sources" "hosts" Sample.rest
      (Some "webservers") None None None Sample.relationship
    = (inr (VDict doc), Sample.relationship)
    /\ get_group_name_and_hostname Sample.vm (Some "webservers") None
       = inr ("webservers", "vm_x7k2p1")
    /\ get_additional_node_groups Sample.rest "vm" "shop" = ["webservers"]
    /\ doc !! "webservers"
       = Some (VDict {[ "hosts" := VDict {[ "vm_x7k2p1" := VNone ]} ]})
    /\ doc !! "webservers"
       <> Some (VDict
                  {[ "hosts" :=
                       VDict
                         {[ "vm_x7k2p1" :=
                              VDict
                                (expected_host_config (VStr "10.0.0.5")
                                   (VStr "ubuntu") VNone VNone (VBool true))
                         ]} ]}).
Proof.
  eexists. split; [vm_compute; reflexivity |].
  split; [vm_compute; reflexivity |].
  split; [vm_compute; reflexivity |].
  split; [vm_compute; reflexivity |].
  vm_compute. intros H. discriminate H.
Qed.

(** The groups of a [sources] document given by the caller stay in what
    is returned. *)
Example source_config_keeps_given_sources :
  exists doc,
    get_source_config_from_ctx "sources" "hosts" Sample.rest None None None
      (Some {[ "databases" := VDict ∅ ]}) Sample.relationship
    = (inr (VDict doc), Sample.relationship)
    /\ doc !! "databases" = Some (VDict ∅).
Proof. eexists. split; [vm_compute; reflexivity | by_evaluation]. Qed.

(** *** Key material *)

(** The inventory of the sample: the key three levels down is written to a
    file of mode [0600] in the workspace, and a second run writes nothing. *)
Example sample_inventory_keys :
  let first := handle_key_data Sample.inventory "/tmp/tmpXk2a9b" Sample.os in
  first.1
  = inr {[ "webservers" :=
             VDict
               {[ "hosts" :=
                    VDict
                      {[ "vm_x7k2p1" :=
                           VDict
                             {[ "ansible_host" := VStr "10.0.0.5";
                                "ansible_ssh_private_key_file" :=
                                  VStr "/tmp/tmpXk2a9b/key-" ]} ]} ]} ]}
  /\ files first.2
     = {[ "/tmp/tmpXk2a9b" := Dir;
          "/tmp/tmpXk2a9b/key-" := File Sample.inline_key 384 ]}
  /\ match first.1 with
     | inr again => handle_key_data again "/tmp/tmpXk2a9b" first.2 = first
     | inl _ => False
     end.
Proof.
  cbv zeta. split; [| split]; [by_evaluation .. | vm_compute; reflexivity].
Qed.

(** A key that is already a file: nothing is written. *)
Example existing_key_kept :
  let st := set_files (insert "/etc/keys/id_rsa" (File "..." 384))
              Sample.os in
  let entry : gmap string value :=
    {[ "ansible_ssh_private_key_file" := VStr "/etc/keys/id_rsa" ]} in
  handle_key_data entry "/tmp/tmpXk2a9b" st = (inr entry, st).
Proof. reflexivity. Qed.

(** A null entry is not key material: [outfile.write] raises [TypeError]
    on it, after the file has been created. *)
Example null_key_raises :
  handle_key_data {[ "ansible_ssh_private_key_file" := VNone ]}
    "/tmp/tmpXk2a9b" Sample.os
  = (inl TypeError,
     {| files := {[ "/tmp/tmpXk2a9b" := Dir;
                    "/tmp/tmpXk2a9b/key-" := File "" 420 ]};
        umask := 18; writable := writable Sample.os;
        uuid_gen := uuid_gen Sample.os; uuid_counter := 1 |}).
Proof. vm_compute. reflexivity. Qed.

(** *** Playbook paths *)

Example playbook_path_resolved :
  let st := set_files
              (insert
                 "/opt/manager/resources/blueprints/default_tenant/shop-bp/site.yaml"
                 (File "- hosts: all" 420)) Sample.os in
  handle_file_path Sample.BP_INCLUDES_PATH (VStr "site.yaml")
    Sample.node_instance st
  = inr "/opt/manager/resources/blueprints/default_tenant/shop-bp/site.yaml"
  /\ exists m,
       handle_file_path Sample.BP_INCLUDES_PATH (VStr "site.yaml")
         Sample.node_instance Sample.os
       = inl (NonRecoverableError m).
Proof.
  split; [vm_compute; reflexivity |]. eexists. vm_compute. reflexivity.
Qed.

Example playbook_path_not_a_string :
  handle_file_path Sample.BP_INCLUDES_PATH (VList [VStr "site.yaml"])
    Sample.node_instance Sample.os
  = inl (NonRecoverableError
           (Message "The variable file_path {0} is a {1},expected a string."
              [FValue (VList [VStr "site.yaml"]); FType TList])).
Proof. reflexivity. Qed.

(** ** More properties *)

(** ** Further properties *)

(** *** Loops over the items of a dictionary *)

Lemma foldl_delete_lookup_gen {A} (l : list (string * A))
    (m : gmap string A) (k : string) :
  foldl (fun e kv => delete kv.1 e) m l !! k
  = if decide (k ∈ l.*1) then None else m !! k.
Proof.
  revert m. induction l as [|[k0 v0] l IH]; intros m; simpl.
  - destruct (decide (k ∈ [])) as [H|_]; [inversion H | reflexivity].
  - rewrite IH. destruct (decide (k ∈ l.*1)) as [Hin|Hnin].
    + rewrite decide_True; [reflexivity | right; exact Hin].
    + destruct (decide (k = k0)) as [->|Hne].
      * rewrite lookup_delete_eq, decide_True; [reflexivity | left].
      * rewrite lookup_delete_ne by congruence.
        rewrite decide_False; [reflexivity |].
        intros [->|H]%elem_of_cons; contradiction.
Qed.

Lemma elem_of_fst_map_to_list {A} (m : gmap string A) (k : string) :
  k ∈ (map_to_list m).*1 <-> is_Some (m !! k).
Proof.
  rewrite list_elem_of_fmap. split.
  - intros ([k' v] & -> & H%elem_of_map_to_list). eauto.
  - intros [v Hv]. exists (k, v). split; [reflexivity |].
    apply elem_of_map_to_list. exact Hv.
Qed.

Lemma foldl_delete_all {A} (m : gmap string A) :
  foldl (fun e kv => delete kv.1 e) m (map_to_list m) = ∅.
Proof.
  apply map_eq. intros k. rewrite foldl_delete_lookup_gen, lookup_empty.
  destruct (decide (k ∈ (map_to_list m).*1)) as [_|H]; [reflexivity |].
  destruct (m !! k) eqn:Hk; [| reflexivity].
  exfalso. apply H, elem_of_fst_map_to_list. eauto.
Qed.

(** *** Runtime properties at the end of the life cycle *)

Lemma get_set_instance_properties (rp : gmap string value) (c : context) :
  runtime_properties (_get_instance (set_instance_properties rp c)) = rp.
Proof.
  unfold set_instance_properties, _get_instance, _get_subject.
  destruct (ctx_view c); reflexivity.
Qed.

Lemma set_set_instance_properties (rp rp' : gmap string value)
    (c : context) :
  set_instance_properties rp' (set_instance_properties rp c)
  = set_instance_properties rp' c.
Proof.
  unfold set_instance_properties. destruct (ctx_view c); reflexivity.
Qed.

Lemma cleanup_loop (l : list (string * value)) (c : context) :
  NoDup l.*1 ->
  (forall k, k ∈ l.*1 ->
             is_Some (runtime_properties (_get_instance c) !! k)) ->
  foldr (fun kv rest =>
           bind (del_instance_property kv.1) (fun _ : unit => rest))
    (ret tt) l c
  = (inr tt,
     match l with
     | [] => c
     | _ :: _ =>
         set_instance_properties
           (foldl (fun e kv => delete kv.1 e)
              (runtime_properties (_get_instance c)) l) c
     end).
Proof.
  revert c. induction l as [|[k v] l IH]; intros c Hnd Hin;
    [reflexivity |].
  apply NoDup_cons in Hnd as [Hk Hnd]. simpl. unfold bind at 1.
  unfold del_instance_property at 1.
  destruct (Hin k) as [x Hx]; [left |]. simpl in Hx. rewrite Hx.
  rewrite IH.
  - f_equal. rewrite get_set_instance_properties.
    destruct l; [reflexivity |]. apply set_set_instance_properties.
  - exact Hnd.
  - intros k' Hk'. rewrite get_set_instance_properties.
    rewrite lookup_delete_ne; [apply Hin; right; exact Hk' |].
    intros ->. contradiction.
Qed.

(** X1. [cleanup] never raises and leaves the instance (the source side
    in a relationship) without any runtime property; the other side of a
    relationship, the node and the log are as before. *)
Theorem cleanup_empties (c : context) :
  cleanup c = (inr tt, set_instance_properties ∅ c)
  /\ runtime_properties (_get_instance (cleanup c).2) = ∅
  /\ logger (cleanup c).2 = logger c
  /\ _get_node (cleanup c).2 = _get_node c
  /\ match ctx_view c, ctx_view (cleanup c).2 with
     | RELATIONSHIP_INSTANCE _ tgt, RELATIONSHIP_INSTANCE _ tgt' => tgt' = tgt
     | NODE_INSTANCE _, NODE_INSTANCE _ => True
     | _, _ => False
     end.
Proof.
  assert (Hrun : cleanup c = (inr tt, set_instance_properties ∅ c)).
  { unfold cleanup, for_items. rewrite cleanup_loop.
    - f_equal. rewrite foldl_delete_all.
      destruct (map_to_list (runtime_properties (_get_instance c))) eqn:Hl;
        [| reflexivity].
      apply map_to_list_empty_iff in Hl.
      unfold set_instance_properties, _get_instance, _get_subject in *.
      destruct c as [v dep ten bp loc logs]. simpl in *.
      destruct v as [[n [i rp]] | [n [i rp]] tgt]; simpl in *; subst rp;
        reflexivity.
    - apply NoDup_fst_map_to_list.
    - intros k Hk. apply elem_of_fst_map_to_list, Hk. }
  split; [exact Hrun |]. rewrite Hrun. cbn [snd].
  split; [apply get_set_instance_properties |].
  unfold set_instance_properties, _get_node, _get_subject.
  destruct (ctx_view c) eqn:Hv; simpl; rewrite ?Hv; repeat split.
Qed.

(** *** Unsetting environment variables *)

Lemma unassign_loop_cons (k0 v0 : string) (l : list (string * string))
    (env : gmap string string) :
  foldr (fun kv rest => bind (del_environ kv.1) (fun _ : unit => rest))
    (ret tt) ((k0, v0) :: l) env
  = match env !! k0 with
    | Some _ =>
        foldr (fun kv rest => bind (del_environ kv.1) (fun _ : unit => rest))
          (ret tt) l (delete k0 env)
    | None => (inl (KeyError k0), env)
    end.
Proof.
  simpl. unfold bind at 1. unfold del_environ at 1. simpl.
  destruct (env !! k0); reflexivity.
Qed.

Lemma unassign_loop_outcome (l : list (string * string))
    (env : gmap string string) :
  NoDup l.*1 ->
  let out :=
    foldr (fun kv rest => bind (del_environ kv.1) (fun _ : unit => rest))
      (ret tt) l env in
  (out.1 = inr tt <-> forall k, k ∈ l.*1 -> is_Some (env !! k))
  /\ (forall e, out.1 = inl e ->
                exists k, e = KeyError k /\ k ∈ l.*1 /\ env !! k = None)
  /\ (forall k, k ∉ l.*1 -> out.2 !! k = env !! k)
  /\ (forall k, is_Some (out.2 !! k) -> is_Some (env !! k)).
Proof.
  revert env. induction l as [|[k0 v0] l IH]; intros env Hnd; cbv zeta.
  - simpl. split; [split; [intros _ k H; inversion H | reflexivity] |].
    split; [intros e [=] |]. split; auto.
  - apply NoDup_cons in Hnd as [Hk0 Hnd]. rewrite unassign_loop_cons.
    destruct (env !! k0) as [x|] eqn:Hx; simpl.
    + destruct (IH (delete k0 env) Hnd) as (Hok & Herr & Hout & Hsub).
      split; [| split; [| split]].
      * rewrite Hok. split.
        -- intros H k [->|Hk]%elem_of_cons; [eauto |].
           specialize (H k Hk). rewrite lookup_delete_ne in H; [exact H |].
           intros ->. contradiction.
        -- intros H k Hk. rewrite lookup_delete_ne;
             [apply H; right; exact Hk |].
           intros ->. contradiction.
      * intros e He. destruct (Herr e He) as (k & -> & Hk & Hnone).
        exists k. split; [reflexivity |]. split; [right; exact Hk |].
        rewrite lookup_delete_ne in Hnone; [exact Hnone |].
        intros ->. contradiction.
      * intros k Hk. rewrite Hout.
        -- apply lookup_delete_ne. intros ->. apply Hk. left.
        -- intros Hin. apply Hk. right. exact Hin.
      * intros k Hk. apply Hsub in Hk.
        destruct (decide (k = k0)) as [->|Hne]; [eauto |].
        rewrite lookup_delete_ne in Hk by congruence. exact Hk.
    + split; [| split; [| split]].
      * split; [discriminate |]. intros H.
        destruct (H k0) as [y Hy]; [left |]. simpl in Hy. congruence.
      * intros e [= <-]. exists k0. split; [reflexivity |].
        split; [left | exact Hx].
      * reflexivity.
      * auto.
Qed.

(** X2. [unassign_environ(V)] succeeds exactly when every key of [V] is
    set in the environment; otherwise it raises [KeyError] for a key of [V]
    that is not set.  Whatever the outcome it never touches a variable
    whose key is not in [V], and it never sets one. *)
Theorem unassign_environ_outcome (_vars env : gmap string string) :
  let out := unassign_environ _vars env in
  (out.1 = inr tt <-> forall k, is_Some (_vars !! k) -> is_Some (env !! k))
  /\ (forall e, out.1 = inl e ->
                exists k, e = KeyError k /\ is_Some (_vars !! k) /\
                          env !! k = None)
  /\ (forall k, _vars !! k = None -> out.2 !! k = env !! k)
  /\ (forall k, is_Some (out.2 !! k) -> is_Some (env !! k)).
Proof.
  unfold unassign_environ, for_items.
  destruct (unassign_loop_outcome (map_to_list _vars) env
              (NoDup_fst_map_to_list _)) as (Hok & Herr & Hout & Hsub).
  cbv zeta in *. split; [| split; [| split]].
  - rewrite Hok. split; intros H k Hk;
      apply H, elem_of_fst_map_to_list, Hk.
  - intros e He. destruct (Herr e He) as (k & -> & Hk & Hnone).
    exists k. split; [reflexivity |].
    split; [apply elem_of_fst_map_to_list, Hk | exact Hnone].
  - intros k Hk. apply Hout. intros Hin.
    apply elem_of_fst_map_to_list in Hin as [v Hv]. congruence.
  - exact Hsub.
Qed.

(** *** Deployment groups and host configuration *)

Lemma additional_groups_fold_NoDup (node_name : string)
    (l : list (string * deployment_group)) (acc : list string) :
  NoDup l.*1 -> NoDup acc -> (forall k, k ∈ acc -> k ∉ l.*1) ->
  NoDup
    (foldl
       (fun acc kv =>
          if bool_decide (node_name ∈ default [] (members kv.2)) &&
             truthy_str (Some kv.1)
          then (acc ++ [kv.1])%list else acc)
       acc l).
Proof.
  revert acc. induction l as [|[k0 g0] l IH]; intros acc Hl Hacc Hdisj;
    [exact Hacc |].
  rewrite fmap_cons in Hl. apply NoDup_cons in Hl as [Hk0 Hl].
  cbn [foldl fst snd] in *.
  assert (Hdisj' : forall k, k ∈ acc -> k ∉ l.*1).
  { intros k Hk Hin. apply (Hdisj k Hk). right. exact Hin. }
  destruct (bool_decide (node_name ∈ default [] (members g0)) &&
            truthy_str (Some k0));
    [| apply IH; [exact Hl | exact Hacc | exact Hdisj']].
  apply IH; [exact Hl | |].
  - apply NoDup_app. split; [exact Hacc |]. split; [| apply NoDup_singleton].
    intros k Hk Hk'. apply list_elem_of_singleton in Hk'. subst k.
    apply (Hdisj k0 Hk). left.
  - intros k [Hk | Hk]%elem_of_app.
    + apply Hdisj', Hk.
    + apply list_elem_of_singleton in Hk. subst k. exact Hk0.
Qed.

(** X3. [get_additional_node_groups] gives, each once, the non-empty names
    of the groups of the deployment that have the node among their members,
    and nothing when no REST client can be had. *)
Theorem get_additional_node_groups_listing (rest : rest_client)
    (node_name deployment_id : string) :
  let result := get_additional_node_groups rest node_name deployment_id in
  NoDup result
  /\ (forall a,
        a ∈ result
        <-> exists client grp,
              rest = Some client /\
              default ∅ (groups (client deployment_id)) !! a = Some grp /\
              node_name ∈ default [] (members grp) /\ a <> "")
  /\ get_additional_node_groups None node_name deployment_id = [].
Proof.
  split; [| split; [| reflexivity]].
  - unfold get_additional_node_groups. destruct rest as [client|];
      [| apply NoDup_nil_2].
    apply additional_groups_fold_NoDup.
    + apply NoDup_fst_map_to_list.
    + apply NoDup_nil_2.
    + intros k H. inversion H.
  - intros a. apply elem_of_get_additional_node_groups.
Qed.

(** X4. [get_host_config_from_compute_node] raises [AttributeError]
    exactly when the node has an [agent_config] property that is not a
    dictionary, and nothing else; otherwise it returns a dictionary with
    exactly the six [ansible_*] keys, whose [ansible_ssh_common_args]
    holds the strict-host-key-checking override. *)
Theorem get_host_config_from_compute_node_outcome (subj : subject) :
  let r := get_host_config_from_compute_node subj in
  let malformed :=
    exists v, properties (s_node subj) !! "agent_config" = Some v /\
              forall d, v <> VDict d in
  (r = inl AttributeError <-> malformed)
  /\ ((exists e, r = inl e) <-> malformed)
  /\ (forall hc,
        r = inr hc ->
        dom hc
        = {[ "ansible_host"; "ansible_user"; "ansible_ssh_pass";
             "ansible_ssh_private_key_file"; "ansible_ssh_common_args";
             "ansible_become" ]}
        /\ hc !! "ansible_ssh_common_args" = Some (VStr STRICT)
        /\ contains (dict_get_default hc "ansible_ssh_common_args" (VStr ""))
             STRICT = inr true).
Proof.
  cbv zeta. unfold get_host_config_from_compute_node, dict_get_default.
  destruct (properties (s_node subj) !! "agent_config") as [v|] eqn:Hac;
    simpl.
  - destruct v as [| | | | |d]; simpl;
      try (split; [split; [intros _; eexists; split;
                             [reflexivity | intros d; discriminate]
                          | reflexivity]
                  | split; [split; [intros _; eexists; split;
                                      [reflexivity | intros d; discriminate]
                                   | intros _; eexists; reflexivity]
                           | intros hc [=]]]).
    split; [| split].
    + split; [intros [=] |]. intros (v & [= <-] & Hv).
      destruct (Hv d eq_refl).
    + split; [intros [e [=]] |]. intros (v & [= <-] & Hv).
      destruct (Hv d eq_refl).
    + intros hc [= <-]. split; [| split; reflexivity].
      rewrite !dom_insert_L, dom_empty_L. set_solver.
  - split; [| split].
    + split; [intros [=] | intros (v & [=] & _)].
    + split; [intros [e [=]] | intros (v & [=] & _)].
    + intros hc [= <-]. split; [| split; reflexivity].
      rewrite !dom_insert_L, dom_empty_L. set_solver.
Qed.

(** *** The translator: errors and what is left untouched *)

Section TranslatorMore.

Context (SOURCES HOSTS : string).

Lemma source_config_from_outcome (rest : rest_client) (subj : subject)
    (node_name : string) (group_name hostname : option string)
    (host_config : option (gmap string value))
    (sources : gmap string value) (_ctx : context) :
  let out :=
    source_config_from HOSTS rest subj node_name group_name hostname
      host_config sources _ctx in
  ctx_view out.2 = ctx_view _ctx
  /\ (out.2 = _ctx \/
      (out.2 = (log WARN STRICT_WARNING _ctx).2 /\ exists v, out.1 = inr v))
  /\ (forall e, out.1 = inl e ->
                e = AttributeError \/ e = TypeError \/
                exists m, e = NonRecoverableError m).
Proof.
  cbv zeta. unfold source_config_from, bind, lift, get_state.
  destruct (host_config_or_derived host_config subj) as [e|hc] eqn:Hhc.
  - simpl. split; [reflexivity |]. split; [left; reflexivity |].
    intros e' [= <-]. left.
    unfold host_config_or_derived in Hhc.
    destruct (truthy_dict host_config); [discriminate |].
    unfold get_host_config_from_compute_node in Hhc.
    destruct (dict_get_default (properties (s_node subj)) "agent_config"
                (VDict ∅)); simpl in Hhc; congruence.
  - destruct (get_group_name_and_hostname subj group_name hostname)
      as [e|[g h]] eqn:Hnames.
    + simpl. split; [reflexivity |]. split; [left; reflexivity |].
      intros e' [= <-]. right. right.
      unfold get_group_name_and_hostname in Hnames.
      destruct (_ && _); [| discriminate].
      injection Hnames as <-. eauto.
    + cbn [fst snd].
      destruct (contains
                  (dict_get_default hc "ansible_ssh_common_args" (VStr ""))
                  STRICT) as [e|present] eqn:Hc.
      * split; [reflexivity |]. split; [left; reflexivity |].
        intros e' [= <-]. right. left.
        unfold contains in Hc.
        destruct (dict_get_default hc "ansible_ssh_common_args" (VStr ""));
          congruence.
      * destruct present; simpl.
        -- split; [reflexivity |]. split; [left; reflexivity |].
           intros e [=].
        -- split; [reflexivity |].
           split; [right; split; [reflexivity | eauto] |]. intros e [=].
Qed.


(** X6. Where a document has to be translated (a relationship, or a node
    instance without persisted sources to return) from a node that is not a
    compute node, with neither a group name nor a hostname supplied,
    [get_source_config_from_ctx] raises [NonRecoverableError] and leaves
    the context as it is; the host configuration is resolved first, so this
    is for a host configuration that the caller gives or that can be
    derived. *)
Theorem get_source_config_from_ctx_no_names (rest : rest_client)
    (group_name hostname : option string)
    (host_config sources : option (gmap string value)) (_ctx : context)
    (subj : subject) (hc : gmap string value) :
  translated_subject SOURCES _ctx = Some subj ->
  host_config_or_derived host_config subj = inr hc ->
  ~ supplied group_name -> ~ supplied hostname ->
  COMPUTE ∉ type_hierarchy (s_node subj) ->
  get_source_config_from_ctx SOURCES HOSTS rest group_name hostname
    host_config sources _ctx
  = (inl (NonRecoverableError
            (Message
               ("No sources or group_name, or hostname was provided, " ++
                "and furthermore no compute node was provided " ++
                "to generate them from.") [])),
     _ctx).
Proof.
  intros Hsubj Hhc Hg Hh Hcompute.
  rewrite (get_source_config_from_ctx_translated _ _ _ _ _ _ _ _ _ Hsubj).
  unfold source_config_from, bind, lift. rewrite Hhc.
  unfold get_group_name_and_hostname.
  apply truthy_str_not_supplied in Hg, Hh. rewrite Hg, Hh.
  rewrite bool_decide_eq_false_2 by exact Hcompute. reflexivity.
Qed.

(** X7. A caller's host configuration whose [ansible_ssh_common_args] is
    null, a boolean or a number makes the membership test raise
    [TypeError]: no document is returned and nothing is logged. *)
Theorem get_source_config_from_ctx_bad_common_args (rest : rest_client)
    (group_name hostname : option string)
    (caller : gmap string value) (sources : option (gmap string value))
    (_ctx : context) (subj : subject) (v : value) (g h : string) :
  translated_subject SOURCES _ctx = Some subj ->
  caller !! "ansible_ssh_common_args" = Some v ->
  match v with VNone | VBool _ | VInt _ => True | _ => False end ->
  get_group_name_and_hostname subj group_name hostname = inr (g, h) ->
  get_source_config_from_ctx SOURCES HOSTS rest group_name hostname
    (Some caller) sources _ctx
  = (inl TypeError, _ctx).
Proof.
  intros Hsubj Hv Hkind Hnames.
  rewrite (get_source_config_from_ctx_translated _ _ _ _ _ _ _ _ _ Hsubj).
  assert (Hne : caller <> ∅).
  { intros ->. rewrite lookup_empty in Hv. discriminate. }
  unfold source_config_from, bind, lift, host_config_or_derived, or_dict,
    truthy_dict.
  rewrite bool_decide_eq_false_2 by exact Hne. simpl. rewrite Hnames.
  cbn [fst snd get_state]. unfold get_state, dict_get_default.
  rewrite Hv. destruct v; try contradiction; reflexivity.
Qed.

(** X8. On a compute node a persisted document is not returned: in a
    node-instance context whose node has ['cloudify.nodes.Compute'] in its
    type hierarchy the document is translated from the node itself, the
    names always resolve (group name override or else the node's type,
    hostname override or else the instance's id), and, when no auxiliary
    group has the group name, the document holds the host configuration
    under the group name, a null record under each auxiliary group and
    otherwise what the caller's [sources] hold. *)
Theorem get_source_config_from_ctx_compute_node (rest : rest_client)
    (group_name hostname : option string)
    (host_config sources : option (gmap string value)) (_ctx : context)
    (self : subject) (hc : gmap string value) (present : bool) :
  ctx_view _ctx = NODE_INSTANCE self ->
  COMPUTE ∈ type_hierarchy (s_node self) ->
  host_config_or_derived host_config self = inr hc ->
  contains (dict_get_default hc "ansible_ssh_common_args" (VStr "")) STRICT
    = inr present ->
  let g := or_str group_name (node_type (s_node self)) in
  let h := or_str hostname (instance_id (s_instance self)) in
  let aux :=
    get_additional_node_groups rest (node_name (s_node self))
      (deployment_id _ctx) in
  g ∉ aux ->
  exists doc,
    get_source_config_from_ctx SOURCES HOSTS rest group_name hostname
      host_config sources _ctx
    = (inr (VDict doc), warned present _ctx)
    /\ (forall k,
          doc !! k
          = if decide (k = g)
            then Some (VDict {[HOSTS := VDict {[h := VDict hc]}]})
            else if decide (k ∈ aux)
                 then Some (VDict {[HOSTS := VDict {[h := VNone]}]})
                 else match sources with
                      | Some given => given !! k
                      | None => None
                      end).
Proof.
  intros Hview Hcompute Hhc Hpresent g h aux Hfresh.
  assert (Hsubj : translated_subject SOURCES _ctx = Some self).
  { unfold translated_subject. rewrite Hview.
    rewrite bool_decide_eq_true_2 by exact Hcompute. reflexivity. }
  assert (Hnames : get_group_name_and_hostname self group_name hostname
                   = inr (g, h)).
  { unfold get_group_name_and_hostname.
    rewrite bool_decide_eq_true_2 by exact Hcompute.
    rewrite andb_false_r. reflexivity. }
  eexists. split.
  - rewrite (get_source_config_from_ctx_translated _ _ _ _ _ _ _ _ _ Hsubj).
    apply (source_config_from_run _ _ _ _ _ _ _ _ hc g h present);
      assumption.
  - intros k. rewrite lookup_add_additional_groups. fold aux.
    destruct (decide (k = g)) as [->|Hne].
    + rewrite decide_False by exact Hfresh. apply lookup_insert_eq.
    + destruct (decide (k ∈ aux)); [reflexivity |].
      rewrite lookup_insert_ne by congruence.
      unfold or_dict, truthy_dict. destruct sources as [given|].
      * destruct (bool_decide_reflect (given = ∅)) as [->|_];
          [apply lookup_empty | reflexivity].
      * apply lookup_empty.
Qed.

End TranslatorMore.

(** *** Translating and accumulating *)

Section Remerge.

Context (SOURCES HOSTS : string).

Lemma warned_view (present : bool) (_ctx : context) :
  ctx_view (warned present _ctx) = ctx_view _ctx.
Proof. destruct present; reflexivity. Qed.


(** X9. In a relationship context [get_remerged_config_sources] returns
    the document it has stored under [SOURCES] on the source-side
    instance: the document stored there before, merged with the fragment
    translated from the target side with the caller's keyword arguments
    (no [host_config], or an empty one, meaning the configuration derived
    from the target).  When the translation raises, the same exception
    comes out and the context, stored document included, is as before. *)
Theorem get_remerged_config_sources_relationship (rest : rest_client)
    (kw : kwargs) (_ctx : context) (src tgt : subject)
    (hc : gmap string value) (g h : string) (present : bool) :
  ctx_view _ctx = RELATIONSHIP_INSTANCE src tgt ->
  host_config_or_derived (Some (default ∅ (kw_host_config kw))) tgt
    = inr hc ->
  get_group_name_and_hostname tgt (kw_group_name kw) (kw_hostname kw)
    = inr (g, h) ->
  contains (dict_get_default hc "ansible_ssh_common_args" (VStr "")) STRICT
    = inr present ->
  let fragment :=
    VDict
      (add_additional_groups HOSTS h
         (get_additional_node_groups rest (node_name (s_node tgt))
            (deployment_id _ctx))
         {[g := VDict {[HOSTS := VDict {[h := VDict hc]}]}]}) in
  let merged :=
    config (merge_source HOSTS
              (mkAnsibleSource (current_document SOURCES src))
              (mkAnsibleSource fragment)) in
  get_remerged_config_sources SOURCES HOSTS rest kw _ctx
    = (inr merged, persisted SOURCES merged src tgt (warned present _ctx))
  /\ runtime_properties
       (_get_instance
          (get_remerged_config_sources SOURCES HOSTS rest kw _ctx).2)
       !! SOURCES = Some merged
  /\ (forall kw' e,
        (get_source_config_from_ctx SOURCES HOSTS rest (kw_group_name kw')
           (kw_hostname kw') (Some (default ∅ (kw_host_config kw'))) None
           _ctx).1 = inl e ->
        get_remerged_config_sources SOURCES HOSTS rest kw' _ctx
        = (inl e, _ctx)).
Proof.
  intros Hview Hhc Hnames Hpresent fragment merged.
  assert (Hrun :
    get_remerged_config_sources SOURCES HOSTS rest kw _ctx
    = (inr merged, persisted SOURCES merged src tgt (warned present _ctx))).
  { unfold get_remerged_config_sources. rewrite Hview. unfold bind at 1.
    unfold get_source_config_from_ctx at 1. rewrite Hview.
    rewrite (source_config_from_run _ _ _ _ _ _ _ _ hc g h present
               _ Hhc Hnames Hpresent).
    unfold bind at 1.
    rewrite (update_sources_from_target_run SOURCES HOSTS _
               (warned present _ctx) src tgt);
      [| rewrite warned_view; exact Hview].
    cbv zeta. unfold ret, or_dict. simpl.
    rewrite insert_empty. reflexivity. }
  split; [exact Hrun |]. split.
  - rewrite Hrun. cbn [snd]. unfold persisted, _get_instance, _get_subject.
    simpl. apply lookup_insert_eq.
  - intros kw' e He. unfold get_remerged_config_sources. rewrite Hview.
    unfold bind at 1.
    unfold get_source_config_from_ctx in He |- *. rewrite Hview in He |- *.
    destruct (source_config_from_outcome HOSTS rest tgt
                (node_name (s_node tgt)) (kw_group_name kw')
                (kw_hostname kw') (Some (default ∅ (kw_host_config kw')))
                (or_dict None ∅) _ctx)
      as (_ & Hlog & _).
    cbv zeta in Hlog.
    destruct (source_config_from HOSTS rest tgt (node_name (s_node tgt))
                (kw_group_name kw') (kw_hostname kw')
                (Some (default ∅ (kw_host_config kw'))) (or_dict None ∅)
                _ctx)
      as [r c'].
    simpl in He, Hlog. subst r.
    destruct Hlog as [-> | [_ [v Hv]]]; [reflexivity | discriminate].
Qed.

(** X10. What [update_sources_from_target] has stored is what a later
    operation on the source node gets: in a node-instance context of that
    node, if it is not a compute node and the stored document is not
    empty, [get_source_config_from_ctx] returns that document, whatever
    its arguments. *)
Theorem stored_sources_read_back (rest : rest_client) (new : value)
    (group_name hostname : option string)
    (host_config sources : option (gmap string value)) (_ctx : context)
    (src tgt : subject) :
  ctx_view _ctx = RELATIONSHIP_INSTANCE src tgt ->
  COMPUTE ∉ type_hierarchy (s_node src) ->
  let stored := update_sources_from_target SOURCES HOSTS new _ctx in
  (exists merged, stored.1 = inr merged /\ truthy merged = true) ->
  exists src',
    ctx_view stored.2 = RELATIONSHIP_INSTANCE src' tgt
    /\ s_node src' = s_node src
    /\ get_source_config_from_ctx SOURCES HOSTS rest group_name hostname
         host_config sources (set_view (NODE_INSTANCE src') stored.2)
       = (stored.1, set_view (NODE_INSTANCE src') stored.2).
Proof.
  intros Hview Hcompute stored (merged & Hmerged & Htruthy).
  unfold stored in *.
  rewrite (update_sources_from_target_run SOURCES HOSTS new _ctx src tgt
             Hview) in *.
  cbn [fst snd] in *. injection Hmerged as <-.
  eexists. split; [reflexivity |]. split; [reflexivity |].
  unfold get_source_config_from_ctx. simpl.
  rewrite bool_decide_eq_false_2 by exact Hcompute.
  unfold dict_get. rewrite lookup_insert_eq. simpl. rewrite Htruthy.
  reflexivity.
Qed.

End Remerge.

(** *** Key material: what is left alone, and failures *)

Section KeyDataMore.

Implicit Types (st : os_state) (d cur : gmap string value).

Lemma recurse_dictionary_sound (workspace_dir : string) (k : string)
    (v : value) st (r : gmap string value) st' :
  recurse_dictionary workspace_dir v st = (inr r, st') ->
  settled st' (VDict r) /\ grows st st'.
Proof.
  intros Hr. destruct v as [| | | | |dv];
    try (simpl in Hr; unfold ret in Hr; injection Hr as <- <-;
         split; [| apply grows_refl];
         simpl; rewrite lookup_empty, map_fold_empty; exact I).
  exact (recurse_dictionary_result _ _ _ _ _ _ eq_refl Hr).
Qed.

Lemma unreached_settled (v : value) st :
  forall d, v = VDict d -> (forall path leaf, ~ reaches d path leaf) ->
            settled st v.
Proof.
  induction v as [v IH] using value_nested_ind. intros d -> Hnone.
  destruct (d !! KEY_FILE) as [kv|] eqn:Hk.
  - destruct (Hnone [] d). apply reaches_here. eauto.
  - apply (settled_no_key _ _ Hk). intros k v Hv.
    destruct v as [| | | | |inner]; try exact I.
    apply (IH d k (VDict inner) eq_refl Hv inner eq_refl).
    intros path leaf Hreach.
    exact (Hnone (k :: path) leaf (reaches_down _ _ _ _ _ Hk Hv Hreach)).
Qed.

(** X11. A dictionary in which the recursion reaches no key-file entry
    (none at the top, none in the dictionaries below; lists are not
    entered) comes back as it is: nothing is written and no name is
    drawn. *)
Theorem handle_key_data_nothing_to_do (workspace_dir : string) d st :
  (forall path leaf, ~ reaches d path leaf) ->
  handle_key_data d workspace_dir st = (inr d, st).
Proof.
  intros Hnone. unfold handle_key_data.
  apply recurse_dictionary_settled; [reflexivity |].
  exact (unreached_settled _ _ _ eq_refl Hnone).
Qed.

(** X12. A run that succeeds keeps the shape of the dictionary: the keys
    are the same, an item that is neither a dictionary nor the key-file
    entry is unchanged, and an item that is a dictionary is still one. *)
Theorem handle_key_data_keeps_shape (workspace_dir : string) d st d' st' :
  handle_key_data d workspace_dir st = (inr d', st') ->
  dom d' = dom d
  /\ (forall k v, d !! k = Some v -> k <> KEY_FILE ->
                  (forall inner, v <> VDict inner) -> d' !! k = Some v)
  /\ (forall k inner, d !! k = Some (VDict inner) ->
                      exists inner', d' !! k = Some (VDict inner')).
Proof.
  unfold handle_key_data. intros Hrun.
  destruct (d !! KEY_FILE) as [kv|] eqn:Hk.
  - simpl in Hrun. rewrite Hk in Hrun.
    destruct (materialize_key_inv _ _ _ _ _ _ Hrun) as (k0 & -> & Hd & _).
    cbv zeta in Hd. subst d'. destruct (exists_str st k0).
    + split; [reflexivity |]. split; [auto | eauto].
    + split; [| split].
      * apply dom_insert_lookup_L. eauto.
      * intros k v Hv Hne _. rewrite lookup_insert_ne by congruence.
        exact Hv.
      * intros k inner Hv. exists inner.
        rewrite lookup_insert_ne; [exact Hv |]. intros <-. congruence.
  - rewrite (recurse_dictionary_no_key _ _ Hk) in Hrun.
    destruct (key_loop_result (recurse_dictionary workspace_dir)
                (map_to_list d)) with (cur := d) (st := st) (d' := d')
      (st' := st') as (_ & Hkeep & Hnew).
    + intros k v s r s' _. apply recurse_dictionary_sound. exact k.
    + apply NoDup_fst_map_to_list.
    + exact Hrun.
    + assert (Hlook : forall k,
                match d !! k with
                | Some (VDict _) => exists inner', d' !! k = Some (VDict inner')
                | other => d' !! k = other
                end).
      { intros k. destruct (d !! k) as [v|] eqn:Hv.
        - destruct v as [| | | | |inner];
            try (rewrite Hkeep; [exact Hv |]; intros dv Hin;
                 apply elem_of_map_to_list in Hin; congruence).
          destruct (Hnew k inner) as (r & Hr & _);
            [apply elem_of_map_to_list, Hv | eauto].
        - rewrite Hkeep; [exact Hv |]. intros dv Hin.
          apply elem_of_map_to_list in Hin. congruence. }
      split; [| split].
      * apply set_eq. intros k. rewrite !elem_of_dom.
        specialize (Hlook k). destruct (d !! k) as [v|] eqn:Hv.
        -- destruct v; try (rewrite Hlook; split; eauto).
           destruct Hlook as [inner' ->]. split; eauto.
        -- rewrite Hlook. reflexivity.
      * intros k v Hv _ Hnd. specialize (Hlook k). rewrite Hv in Hlook.
        destruct v as [| | | | |inner]; try exact Hlook.
        destruct (Hnd inner eq_refl).
      * intros k inner Hv. specialize (Hlook k). rewrite Hv in Hlook.
        exact Hlook.
Qed.

Lemma follows_refl st : follows st st.
Proof. repeat split; [apply grows_refl | lia]. Qed.

Lemma follows_trans st1 st2 st3 :
  follows st1 st2 -> follows st2 st3 -> follows st1 st3.
Proof.
  intros (Hg & Hu & Hw & Hn & Hc) (Hg' & Hu' & Hw' & Hn' & Hc').
  repeat split; [exact (grows_trans _ _ _ Hg Hg') | congruence ..| lia].
Qed.

Lemma follows_set_files st p node :
  follows st (set_files (insert p node) st).
Proof.
  repeat split; [| simpl; lia]. intros q Hq.
  rewrite exists_str_insert, Hq. apply orb_true_r.
Qed.

Lemma follows_uuid1 st : follows st (uuid1 st).2.
Proof. repeat split; [intros p H; exact H | simpl; lia]. Qed.

Lemma follows_open_w (p : string) st : follows st (open_w p st).2.
Proof.
  unfold open_w. destruct (writable st p); [| apply follows_refl].
  destruct (files st !! p) as [[c m|]|]; simpl;
    [apply follows_set_files | apply follows_refl | apply follows_set_files].
Qed.

Lemma follows_write (p : string) (v : value) st : follows st (write p v st).2.
Proof.
  unfold write. destruct v; try apply follows_refl.
  destruct (files st !! p) as [[c m|]|]; simpl;
    [apply follows_set_files | apply follows_refl ..].
Qed.

Lemma follows_chmod (p : string) (mode : Z) st :
  follows st (chmod p mode st).2.
Proof.
  unfold chmod. destruct (files st !! p) as [[c m|]|]; simpl;
    [apply follows_set_files | apply follows_refl ..].
Qed.

Lemma follows_bind {A B} (c : M os_state A) (k : A -> M os_state B) st :
  follows st (c st).2 ->
  (forall a st', follows st' (k a st').2) ->
  follows st (bind c k st).2.
Proof.
  intros Hc Hk. unfold bind. destruct (c st) as [[e|a] st1]; [exact Hc |].
  exact (follows_trans _ _ _ Hc (Hk a st1)).
Qed.

Lemma follows_materialize_key (workspace_dir : string) d (kv : value) st :
  follows st (materialize_key workspace_dir d kv st).2.
Proof.
  unfold materialize_key. apply follows_bind.
  - unfold try_except_TypeError, path_exists.
    destruct kv; apply follows_refl.
  - intros is_file_path st1. destruct is_file_path; [apply follows_refl |].
    apply follows_bind; [apply follows_uuid1 |]. intros u st2.
    apply follows_bind; [apply follows_open_w |]. intros _ st3.
    apply follows_bind; [apply follows_write |]. intros _ st4.
    apply follows_bind; [apply follows_chmod |]. intros _ st5.
    apply follows_refl.
Qed.

Lemma follows_key_loop (rec : value -> M os_state (gmap string value))
    (l : list (string * value)) :
  (forall v st, follows st (rec v st).2) ->
  forall cur st, follows st (key_loop rec l cur st).2.
Proof.
  intros Hrec. induction l as [|[k v] l IH]; intros cur st;
    [apply follows_refl |].
  unfold key_loop. simpl. fold (key_loop rec l).
  destruct v; try apply IH.
  apply follows_bind; [apply Hrec |]. intros r st1. apply IH.
Qed.

Lemma follows_recurse_dictionary (workspace_dir : string) (v : value) :
  forall st, follows st (recurse_dictionary workspace_dir v st).2.
Proof.
  induction v as [v IH] using value_nested_ind. intros st.
  destruct v as [| | | | |d]; try apply follows_refl.
  destruct (d !! KEY_FILE) as [kv|] eqn:Hk.
  - simpl. rewrite Hk. apply follows_materialize_key.
  - rewrite (recurse_dictionary_no_key _ _ Hk).
    assert (Hloop : forall l cur st0,
              (forall k v, (k, v) ∈ l -> d !! k = Some v) ->
              follows st0
                (key_loop (recurse_dictionary workspace_dir) l cur st0).2).
    { induction l as [|[k v] l IHl]; intros cur st0 Hl;
        [apply follows_refl |].
      assert (Hl' : forall k v, (k, v) ∈ l -> d !! k = Some v).
      { intros k' v' Hin. apply Hl. right. exact Hin. }
      unfold key_loop. simpl.
      fold (key_loop (recurse_dictionary workspace_dir) l).
      destruct v as [| | | | |dv]; try (apply IHl; exact Hl').
      apply follows_bind.
      - apply (IH d k (VDict dv) eq_refl). apply Hl. left.
      - intros r st1. apply IHl. exact Hl'. }
    apply Hloop. intros k v Hin. apply elem_of_map_to_list, Hin.
Qed.

(** X13. Whether it returns or raises, [handle_key_data] never removes a
    file: every path that existed before still exists.  It leaves the
    umask and what may be written as they were, and the names it draws
    from [uuid1] only move forward. *)
Theorem handle_key_data_follows (workspace_dir : string) d st :
  let st' := (handle_key_data d workspace_dir st).2 in
  (forall p, exists_str st p = true -> exists_str st' p = true)
  /\ umask st' = umask st
  /\ writable st' = writable st
  /\ uuid_gen st' = uuid_gen st
  /\ (uuid_counter st <= uuid_counter st')%nat.
Proof. apply follows_recurse_dictionary. Qed.

(** X14. A key-file entry that is not a string never goes through: a name
    is drawn, and the call raises [IOError] when the file cannot be opened
    for writing, [TypeError] otherwise, in which case the file is left
    behind, empty.  The dictionary is not returned. *)
Theorem handle_key_data_not_a_string (workspace_dir : string) d
    (kv : value) st :
  d !! KEY_FILE = Some kv ->
  (forall k, kv <> VStr k) ->
  let p := next_key_file workspace_dir st in
  let out := handle_key_data d workspace_dir st in
  let opens := writable st p = true /\ files st !! p <> Some Dir in
  (out.1 = inl TypeError <-> opens)
  /\ (out.1 = inl IOError <-> ~ opens)
  /\ uuid_counter out.2 = S (uuid_counter st)
  /\ (out.1 = inl TypeError ->
      exists mode, files out.2 = <[p := File "" mode]> (files st))
  /\ (out.1 = inl IOError -> files out.2 = files st).
Proof.
  intros Hk Hns p out opens. unfold out.
  rewrite (handle_key_data_entry _ _ _ Hk).
  unfold materialize_key, bind, try_except_TypeError, path_exists, uuid1,
    open_w, opens.
  destruct kv as [| | |k| |]; try (destruct (Hns k eq_refl)); simpl;
    fold (next_key_file workspace_dir st); fold p;
    (destruct (writable st p) eqn:Hw;
     [ destruct (files st !! p) as [[c m|]|] eqn:Hf; simpl
     | simpl ]);
    repeat split;
    try discriminate; try reflexivity; try congruence;
    try (intros [? ?]; congruence);
    try (intros _ [? ?]; congruence);
    try (intros H; exfalso; apply H; split; congruence);
    try (intros _; eexists; reflexivity).
Qed.

End KeyDataMore.


(** *** Key files: their names and what they hold *)

Section KeyNames.

Implicit Types (st : os_state) (d cur : gmap string value).

































End KeyNames.

Section KeyFiles.

Implicit Types (st : os_state) (d : gmap string value).


End KeyFiles.

(** *** The workspace *)

Section Workspace.

Context (WORKSPACE : string).
Context (rmtree : string -> M os_state unit).
Context (mkdtemp : M os_state string).

(** X15. [delete_playbook_workspace] is best-effort: with no workspace
    recorded, or an empty one, or a directory that does not exist, nothing
    happens and nothing is raised; [shutil.rmtree] is called only on a
    recorded path that exists.  The context is never changed: the
    [WORKSPACE] runtime property stays. *)
Theorem delete_playbook_workspace_best_effort (w : world) :
  let directory :=
    dict_get (runtime_properties (_get_instance (w_ctx w))) WORKSPACE in
  let out := delete_playbook_workspace WORKSPACE rmtree w in
  (truthy directory = false -> out = (inr tt, w))
  /\ (forall p, directory = VStr p -> exists_str (w_os w) p = false ->
                out = (inr tt, w))
  /\ (forall p, directory = VStr p -> p <> "" ->
                exists_str (w_os w) p = true -> out = on_os (rmtree p) w)
  /\ w_ctx out.2 = w_ctx w.
Proof.
  cbv zeta. unfold delete_playbook_workspace.
  set (directory :=
         dict_get (runtime_properties (_get_instance (w_ctx w))) WORKSPACE).
  split; [intros ->; reflexivity |].
  split; [| split].
  - intros p Hp Hex. rewrite Hp. simpl.
    destruct (negb (String.eqb p "")); [| destruct w; reflexivity].
    unfold bind, on_os, path_exists. rewrite Hex. destruct w; reflexivity.
  - intros p Hp Hne Hex. rewrite Hp. simpl.
    apply String.eqb_neq in Hne. rewrite Hne. simpl.
    unfold bind, on_os at 1, path_exists. rewrite Hex.
    destruct w; reflexivity.
  - destruct (truthy directory); [| reflexivity].
    unfold bind, on_os, path_exists.
    destruct directory as [| | |p| |]; try reflexivity.
    destruct (exists_str (w_os w) p); [| reflexivity].
    cbn [w_os w_ctx]. destruct (rmtree p (w_os w)); reflexivity.
Qed.

(** X16. Deleting the workspace that [create_playbook_workspace] has just
    made: [shutil.rmtree] is called on the very directory that [mkdtemp]
    returned, and that directory stays recorded under [WORKSPACE]
    afterwards. *)
Theorem create_then_delete_playbook_workspace (w : world) (d : string)
    (st1 : os_state) :
  mkdtemp (w_os w) = (inr d, st1) ->
  d <> "" ->
  exists_str st1 d = true ->
  let created := create_playbook_workspace WORKSPACE mkdtemp w in
  created.1 = inr tt
  /\ w_os created.2 = st1
  /\ runtime_properties (_get_instance (w_ctx created.2)) !! WORKSPACE
     = Some (VStr d)
  /\ delete_playbook_workspace WORKSPACE rmtree created.2
     = on_os (rmtree d) created.2.
Proof.
  intros Hmk Hne Hex created.
  assert (Hc : created
               = (inr tt,
                  {| w_ctx := (set_instance_property WORKSPACE (VStr d)
                                 (w_ctx w)).2;
                     w_os := st1 |})).
  { unfold created, create_playbook_workspace, bind, on_os at 1.
    rewrite Hmk. reflexivity. }
  rewrite Hc. cbn [fst snd w_os w_ctx].
  assert (Hlook : runtime_properties
                    (_get_instance
                       (set_instance_property WORKSPACE (VStr d) (w_ctx w)).2)
                    !! WORKSPACE = Some (VStr d)).
  { rewrite set_instance_property_get. apply lookup_insert_eq. }
  split; [reflexivity |]. split; [reflexivity |]. split; [exact Hlook |].
  unfold delete_playbook_workspace. cbn [w_ctx w_os].
  unfold dict_get. rewrite Hlook. simpl.
  apply String.eqb_neq in Hne. rewrite Hne. simpl.
  unfold bind, on_os at 1, path_exists. cbn [w_os]. rewrite Hex.
  reflexivity.
Qed.

End Workspace.

(** *** An inventory given as a string *)

Section SourceFromString.

Context (readable : string -> bool).
Context (download_resource : string -> string -> M world string).

(** X17. [handle_source_from_string] takes a string without a newline for
    a path: if a file can be opened for reading there, that path is
    returned and nothing is read, written or downloaded; if not, the
    resource is downloaded to the new inventory path, which is returned.
    A string with a newline is inventory text: it is written to the new
    inventory path, replacing what a file there held, one [INFO] record
    is logged, and nothing is downloaded. *)
Theorem handle_source_from_string_cases (filepath new_inventory_path : string)
    (w : world) :
  let out :=
    handle_source_from_string readable download_resource filepath
      new_inventory_path w in
  let opens :=
    readable filepath = true /\
    exists c m, files (w_os w) !! filepath = Some (File c m) in
  (str_contains NEWLINE filepath = false -> opens ->
   out = (inr filepath, w))
  /\ (str_contains NEWLINE filepath = false -> ~ opens ->
      out = bind (download_resource filepath new_inventory_path)
              (fun _ => ret new_inventory_path) w)
  /\ (str_contains NEWLINE filepath = true ->
      writable (w_os w) new_inventory_path = true ->
      files (w_os w) !! new_inventory_path <> Some Dir ->
      out.1 = inr new_inventory_path
      /\ (exists mode,
            files (w_os out.2)
            = <[new_inventory_path := File filepath mode]> (files (w_os w)))
      /\ logger (w_ctx out.2)
         = (logger (w_ctx w) ++
            [LogRecord INFO
               (Message "Writing this data to temp file: {0}"
                  [FValue (VStr new_inventory_path)])])%list
      /\ ctx_view (w_ctx out.2) = ctx_view (w_ctx w)).
Proof.
  cbv zeta. unfold handle_source_from_string.
  split; [| split].
  - intros -> [Hr (c & m & Hf)]. simpl.
    unfold try_except_IOError, bind, on_os, open_r. rewrite Hr, Hf.
    destruct w; reflexivity.
  - intros -> Hno. simpl.
    unfold try_except_IOError, bind at 1, on_os, open_r.
    destruct (readable filepath) eqn:Hr; [| destruct w; reflexivity].
    destruct (files (w_os w) !! filepath) as [[c m|]|] eqn:Hf;
      try (destruct w; reflexivity).
    exfalso. apply Hno. eauto.
  - intros -> Hw Hdir. simpl.
    unfold bind, on_os, on_ctx, open_w. rewrite Hw.
    destruct (files (w_os w) !! new_inventory_path) as [[c m|]|] eqn:Hf;
      [| contradiction |].
    + simpl. rewrite lookup_insert_eq. simpl.
      split; [reflexivity |]. split; [| split; reflexivity].
      eexists. rewrite insert_insert_eq. reflexivity.
    + simpl. rewrite lookup_insert_eq. simpl.
      split; [reflexivity |]. split; [| split; reflexivity].
      eexists. rewrite insert_insert_eq. reflexivity.
Qed.

End SourceFromString.

(** *** Running a playbook *)

Section RunPlaybook.

Context (get_playbook_path get_inventory_path get_executible_path
           : string -> M world string).

(** X18. [run_playbook] asks for the playbook path, the inventory path and
    the executable, in that order.  Then it sets the mode of the key file
    to [0600]: when there is no file at [path_to_key] it raises [OSError]
    and no command is run; otherwise the command
    [[executable, '--sudo', '-i', inventory, playbook, '--private-key',
    key, '--timeout=60']] is run in a world where the key file has mode
    [0600]; what the command raises is what comes out, and when it
    returns, its output and the end of the run are logged. *)
Theorem run_playbook_key_mode (path_to_key playbook private_ip_address : string)
    (w0 w1 w2 w3 : world) (playbook_path inventory_path executible : string) :
  get_playbook_path playbook
    (logged DEBUG (Message "Getting the path to the playbook." []) w0)
  = (inr playbook_path, w1) ->
  get_inventory_path private_ip_address
    (logged DEBUG (Message "Getting the inventory path." [])
       (logged DEBUG
          (Message "Got the playbook path: {}."
             [FValue (VStr playbook_path)]) w1))
  = (inr inventory_path, w2) ->
  get_executible_path "ansible-playbook"
    (logged DEBUG
       (Message "Got the inventory path: {}."
          [FValue (VStr inventory_path)]) w2)
  = (inr executible, w3) ->
  let command :=
    [executible; "--sudo"; "-i"; inventory_path; playbook_path;
     "--private-key"; path_to_key; "--timeout=60"] in
  (files (w_os w3) !! path_to_key = None ->
   forall run_command,
     run_playbook get_playbook_path get_inventory_path get_executible_path
       run_command path_to_key playbook private_ip_address w0
     = (inl OSError, w3))
  /\ (forall content mode,
        files (w_os w3) !! path_to_key = Some (File content mode) ->
        forall run_command,
          let ready :=
            logged INFO
              (Message "Running command: {}."
                 [FValue (VList (VStr <$> command))])
              {| w_ctx := w_ctx w3;
                 w_os := set_files (insert path_to_key (File content 384))
                           (w_os w3) |} in
          files (w_os ready) !! path_to_key = Some (File content 384)
          /\ (forall e after,
                run_command command ready = (inl e, after) ->
                run_playbook get_playbook_path get_inventory_path
                  get_executible_path run_command path_to_key playbook
                  private_ip_address w0
                = (inl e, after))
          /\ (forall output after,
                run_command command ready = (inr output, after) ->
                run_playbook get_playbook_path get_inventory_path
                  get_executible_path run_command path_to_key playbook
                  private_ip_address w0
                = (inr tt,
                   logged INFO
                     (Message "Finished running the Ansible Playbook." [])
                     (logged INFO
                        (Message "Command Output: {}."
                           [FValue (VStr output)]) after)))).
Proof.
  intros Hpp Hinv Hexe command.
  assert (Hprefix : forall run_command,
    run_playbook get_playbook_path get_inventory_path get_executible_path
      run_command path_to_key playbook private_ip_address w0
    = bind (on_os (chmod path_to_key 384))
        (fun _ =>
           bind (on_ctx (log INFO
                           (Message "Running command: {}."
                              [FValue (VList (VStr <$> command))])))
             (fun _ =>
                bind (run_command command)
                  (fun output =>
                     bind (on_ctx (log INFO
                                     (Message "Command Output: {}."
                                        [FValue (VStr output)])))
                       (fun _ =>
                          on_ctx (log INFO
                                    (Message
                                       "Finished running the Ansible Playbook."
                                       [])))))) w3).
  { intros run_command. unfold run_playbook.
    unfold bind at 1. unfold on_ctx at 1. cbn [log modify].
    unfold logged in Hpp. cbn [log modify snd] in Hpp.
    unfold bind at 1. rewrite Hpp.
    unfold bind at 1. unfold on_ctx at 1. cbn [log modify].
    unfold bind at 1. unfold on_ctx at 1. cbn [log modify].
    unfold logged in Hinv. cbn [log modify snd w_ctx w_os] in Hinv.
    unfold bind at 1. cbn [w_ctx w_os]. rewrite Hinv.
    unfold bind at 1. unfold on_ctx at 1. cbn [log modify].
    unfold logged in Hexe. cbn [log modify snd] in Hexe.
    unfold bind at 1. rewrite Hexe. reflexivity. }
  split.
  - intros Hnone run_command. rewrite Hprefix.
    unfold bind at 1. unfold on_os, chmod. rewrite Hnone.
    destruct w3; reflexivity.
  - intros content mode Hfile run_command ready. split; [| split].
    + unfold ready, logged. cbn [w_os]. unfold set_files. cbn [files].
      apply lookup_insert_eq.
    + intros e after Hrun. rewrite Hprefix.
      unfold bind at 1. unfold on_os at 1, chmod. rewrite Hfile.
      unfold bind at 1. unfold on_ctx at 1. cbn [log modify].
      unfold ready, logged in Hrun. cbn [log modify snd w_ctx w_os] in Hrun.
      unfold bind at 1. cbn [w_ctx w_os]. rewrite Hrun. reflexivity.
    + intros output after Hrun. rewrite Hprefix.
      unfold bind at 1. unfold on_os at 1, chmod. rewrite Hfile.
      unfold bind at 1. unfold on_ctx at 1. cbn [log modify].
      unfold ready, logged in Hrun. cbn [log modify snd w_ctx w_os] in Hrun.
      unfold bind at 1. cbn [w_ctx w_os]. rewrite Hrun.
      unfold bind, on_ctx, logged. reflexivity.
Qed.

End RunPlaybook.

(** *** The hosts file *)

Lemma bind_on_os {A B} (c : M os_state A) (k : A -> M world B) (w : world)
    (a : A) (st' : os_state) :
  c (w_os w) = (inr a, st') ->
  bind (on_os c) k w = k a {| w_ctx := w_ctx w; w_os := st' |}.
Proof. intros H. unfold bind, on_os. rewrite H. reflexivity. Qed.

Lemma bind_on_os_raise {A B} (c : M os_state A) (k : A -> M world B)
    (w : world) (e : exn) (st' : os_state) :
  c (w_os w) = (inl e, st') ->
  bind (on_os c) k w = (inl e, {| w_ctx := w_ctx w; w_os := st' |}).
Proof. intros H. unfold bind, on_os. rewrite H. reflexivity. Qed.

Lemma bind_on_ctx {A B} (c : M context A) (k : A -> M world B) (w : world)
    (a : A) (ctx' : context) :
  c (w_ctx w) = (inr a, ctx') ->
  bind (on_ctx c) k w = k a {| w_ctx := ctx'; w_os := w_os w |}.
Proof. intros H. unfold bind, on_ctx. rewrite H. reflexivity. Qed.

Lemma bind_on_ctx_raise {A B} (c : M context A) (k : A -> M world B)
    (w : world) (e : exn) (ctx' : context) :
  c (w_ctx w) = (inl e, ctx') ->
  bind (on_ctx c) k w = (inl e, {| w_ctx := ctx'; w_os := w_os w |}).
Proof. intros H. unfold bind, on_ctx. rewrite H. reflexivity. Qed.

Lemma bind_ret {S A B} (a : A) (k : A -> M S B) (s : S) :
  bind (ret a) k s = k a s.
Proof. reflexivity. Qed.

Ltac os_step H :=
  match goal with
  | |- context [bind (on_os ?c) ?k ?w] =>
      rewrite (bind_on_os c k w _ _ H); cbv beta; cbn [w_ctx w_os]
  end.

Ltac ctx_step :=
  match goal with
  | |- context [bind (on_ctx ?c) ?k ?w] =>
      rewrite (bind_on_ctx c k w _ _ eq_refl); cbv beta; cbn [w_ctx w_os]
  end.

Section Sources.

Context (WORKSPACE HOSTS : string).
Context (readable : string -> bool).
Context (download_resource : string -> string -> M world string).
Context (safe_dump : gmap string value -> string).

(** The text written to [p] from scratch and read back. *)
Lemma write_then_read (p text : string) (st : os_state) :
  writable st p = true -> files st !! p <> Some Dir -> readable p = true ->
  exists mode,
    open_w p st
    = (inr tt, set_files (insert p (File "" mode)) st)
    /\ write p (VStr text) (set_files (insert p (File "" mode)) st)
       = (inr tt, set_files (insert p (File text mode)) st)
    /\ open_r readable p (set_files (insert p (File text mode)) st)
       = (inr text, set_files (insert p (File text mode)) st).
Proof.
  intros Hw Hdir Hr. unfold open_w, write, open_r. rewrite Hw, Hr.
  destruct (files st !! p) as [[c m|]|] eqn:Hf; [| contradiction |];
    eexists; (split; [reflexivity |]); unfold set_files; simpl;
    rewrite !lookup_insert_eq, !insert_insert_eq; split; reflexivity.
Qed.

(** X19. Given a dictionary and a workspace, [handle_sources] returns the
    path [hosts] beside the playbook; the file there holds the YAML dump
    of the dictionary as [handle_key_data] returned it, whether or not a
    file was there before; an [ERROR] record is logged exactly when one
    was, then the dictionary written and what was read back. *)
Theorem handle_sources_dictionary (d d' : gmap string value)
    (site_yaml_abspath workspace_dir : string) (w : world)
    (st1 : os_state) :
  runtime_properties (_get_instance (w_ctx w)) !! WORKSPACE
    = Some (VStr workspace_dir) ->
  handle_key_data d workspace_dir (w_os w) = (inr d', st1) ->
  let hosts_abspath := path_join (dirname site_yaml_abspath) HOSTS in
  writable st1 hosts_abspath = true ->
  files st1 !! hosts_abspath <> Some Dir ->
  readable hosts_abspath = true ->
  let out := handle_sources WORKSPACE HOSTS readable download_resource safe_dump
      (VDict d) site_yaml_abspath w in
  out.1 = inr hosts_abspath
  /\ (exists mode,
        w_os out.2
        = set_files (insert hosts_abspath (File (safe_dump d') mode)) st1)
  /\ ctx_view (w_ctx out.2) = ctx_view (w_ctx w)
  /\ logger (w_ctx out.2)
     = (logger (w_ctx w) ++
        (if exists_str st1 hosts_abspath
         then [LogRecord ERROR
                 (Message
                    ("Hosts data was provided but {0} already exists. " ++
                     "Overwriting existing file.")
                    [FValue (VStr hosts_abspath)])]
         else []) ++
        [LogRecord INFO
           (Message "Writing this data to temp file: {0}"
              [FValue (VDict d')]);
         LogRecord DEBUG
           (Message ("Contents hosts:" ++ NEWLINE ++ " {0}")
              [FValue (VStr (safe_dump d'))])])%list.
Proof.
  intros Hws Hkeys hosts_abspath Hw Hdir Hr out.
  destruct (write_then_read hosts_abspath (safe_dump d') st1 Hw Hdir Hr)
    as (mode & Hopen & Hwrite & Hread).
  assert (Hout :
    out
    = (inr hosts_abspath,
       {| w_ctx :=
            (log DEBUG
               (Message ("Contents hosts:" ++ NEWLINE ++ " {0}")
                  [FValue (VStr (safe_dump d'))])
               (log INFO
                  (Message "Writing this data to temp file: {0}"
                     [FValue (VDict d')])
                  (if exists_str st1 hosts_abspath
                   then (log ERROR
                           (Message
                              ("Hosts data was provided but {0} already " ++
                               "exists. Overwriting existing file.")
                              [FValue (VStr hosts_abspath)])
                           (w_ctx w)).2
                   else w_ctx w)).2).2;
          w_os := set_files
                    (insert hosts_abspath (File (safe_dump d') mode)) st1
       |})).
  { unfold out, handle_sources. fold hosts_abspath.
    unfold bind at 1. unfold bind at 1.
    unfold on_ctx at 1, workspace_of. rewrite Hws. cbn [w_ctx w_os].
    os_step Hkeys.
    os_step (eq_refl (path_exists (VStr hosts_abspath) st1)).
    destruct (exists_str st1 hosts_abspath).
    - ctx_step.
      os_step Hopen.
      ctx_step.
      os_step Hwrite.
      unfold ret at 1. cbv beta iota.
      os_step Hread.
      ctx_step. reflexivity.
    - rewrite bind_ret.
      os_step Hopen.
      ctx_step.
      os_step Hwrite.
      unfold ret at 1. cbv beta iota.
      os_step Hread.
      ctx_step. reflexivity. }
  rewrite Hout. cbn [fst snd w_ctx w_os].
  split; [reflexivity |]. split; [eauto |].
  destruct (exists_str st1 hosts_abspath); simpl;
    (split; [reflexivity |]); rewrite <- ?app_assoc; reflexivity.
Qed.

(** X20. With a dictionary but no [WORKSPACE] runtime property,
    [handle_sources] raises [KeyError] before anything is written or
    logged, even if the dictionary has no key to write. *)
Theorem handle_sources_no_workspace (d : gmap string value)
    (site_yaml_abspath : string) (w : world) :
  runtime_properties (_get_instance (w_ctx w)) !! WORKSPACE = None ->
  handle_sources WORKSPACE HOSTS readable download_resource safe_dump
    (VDict d) site_yaml_abspath w
  = (inl (KeyError WORKSPACE), w).
Proof.
  intros Hws. unfold handle_sources. unfold bind at 1. unfold bind at 1.
  unfold on_ctx at 1, workspace_of. rewrite Hws. destruct w; reflexivity.
Qed.

(** X21. Data that is neither a dictionary nor a string is not an error in
    itself: nothing is written, and [handle_sources] returns the [hosts]
    path beside the playbook if a file can be read there, raising
    [IOError] if not. *)
Theorem handle_sources_other_data (data : value)
    (site_yaml_abspath : string) (w : world) :
  match data with VDict _ | VStr _ => False | _ => True end ->
  let hosts_abspath := path_join (dirname site_yaml_abspath) HOSTS in
  let out := handle_sources WORKSPACE HOSTS readable download_resource safe_dump
      data site_yaml_abspath w in
  let opens :=
    readable hosts_abspath = true /\
    exists c m, files (w_os w) !! hosts_abspath = Some (File c m) in
  w_os out.2 = w_os w
  /\ (out.1 = inr hosts_abspath <-> opens)
  /\ (out = (inl IOError, w) <-> ~ opens).
Proof.
  intros Hkind hosts_abspath out opens.
  assert (Hout : out
                 = bind (on_os (open_r readable hosts_abspath))
                     (fun content =>
                        bind (on_ctx
                                (log DEBUG
                                   (Message
                                      ("Contents hosts:" ++ NEWLINE ++ " {0}")
                                      [FValue (VStr content)])))
                          (fun _ => ret hosts_abspath)) w).
  { unfold out, handle_sources. fold hosts_abspath.
    destruct data; try contradiction; reflexivity. }
  assert (Hcase :
    (opens /\ exists w', out = (inr hosts_abspath, w') /\ w_os w' = w_os w)
    \/ (~ opens /\ out = (inl IOError, w))).
  { rewrite Hout. unfold opens, bind, on_os, on_ctx, open_r.
    destruct (readable hosts_abspath) eqn:Hr;
      [destruct (files (w_os w) !! hosts_abspath) as [[c m|]|] eqn:Hf |].
    - left. split; [eauto |]. eexists. split; reflexivity.
    - right. split; [intros [_ (c & m & [=])] |]. destruct w; reflexivity.
    - right. split; [intros [_ (c & m & [=])] |]. destruct w; reflexivity.
    - right. split; [intros [[=] _] |]. destruct w; reflexivity. }
  destruct Hcase as [[Hopens (w' & -> & Hos)] | [Hnot ->]]; cbn [fst snd].
  - split; [exact Hos |]. split; [tauto |].
    split; [discriminate | contradiction].
  - split; [reflexivity |]. split; [| tauto].
    split; [discriminate | contradiction].
Qed.

(** X22. Inventory text given as a string with a newline ends up in the
    [hosts] file beside the playbook, replacing what a file there held;
    that path is returned and the text is what is read back and logged. *)
Theorem handle_sources_inline_text (text site_yaml_abspath : string)
    (w : world) :
  str_contains NEWLINE text = true ->
  let hosts_abspath := path_join (dirname site_yaml_abspath) HOSTS in
  writable (w_os w) hosts_abspath = true ->
  files (w_os w) !! hosts_abspath <> Some Dir ->
  readable hosts_abspath = true ->
  let out := handle_sources WORKSPACE HOSTS readable download_resource safe_dump
      (VStr text) site_yaml_abspath w in
  out.1 = inr hosts_abspath
  /\ (exists mode,
        w_os out.2
        = set_files (insert hosts_abspath (File text mode)) (w_os w))
  /\ logger (w_ctx out.2)
     = (logger (w_ctx w) ++
        [LogRecord INFO
           (Message "Writing this data to temp file: {0}"
              [FValue (VStr hosts_abspath)]);
         LogRecord DEBUG
           (Message ("Contents hosts:" ++ NEWLINE ++ " {0}")
              [FValue (VStr text)])])%list.
Proof.
  intros Hnl hosts_abspath Hw Hdir Hr out.
  destruct (write_then_read hosts_abspath text (w_os w) Hw Hdir Hr)
    as (mode & Hopen & Hwrite & Hread).
  assert (Hout :
    out
    = (inr hosts_abspath,
       {| w_ctx :=
            (log DEBUG
               (Message ("Contents hosts:" ++ NEWLINE ++ " {0}")
                  [FValue (VStr text)])
               (log INFO
                  (Message "Writing this data to temp file: {0}"
                     [FValue (VStr hosts_abspath)]) (w_ctx w)).2).2;
          w_os := set_files (insert hosts_abspath (File text mode)) (w_os w)
       |})).
  { unfold out, handle_sources. fold hosts_abspath.
    unfold bind at 1. unfold handle_source_from_string. rewrite Hnl.
    cbn [negb].
    os_step Hopen.
    ctx_step.
    os_step Hwrite.
    unfold ret at 1. cbv beta iota.
    os_step Hread.
    ctx_step. reflexivity. }
  rewrite Hout. cbn [fst snd w_ctx w_os].
  split; [reflexivity |]. split; [eauto |].
  simpl. rewrite <- app_assoc. reflexivity.
Qed.

End Sources.

(** ** The sample deployment, continued *)

(** *** The translator *)

(** [vm] related to [app]: the target is not a compute node. *)
Lemma get_source_config_from_ctx_no_names_witness :
  get_source_config_from_ctx "sources" "hosts" Sample.rest None (Some "")
    None None (Sample.context_of (RELATIONSHIP_INSTANCE Sample.vm Sample.app))
  = (inl (NonRecoverableError
            (Message
               ("No sources or group_name, or hostname was provided, " ++
                "and furthermore no compute node was provided " ++
                "to generate them from.") [])),
     Sample.context_of (RELATIONSHIP_INSTANCE Sample.vm Sample.app)).
Proof.
  apply (get_source_config_from_ctx_no_names "sources" "hosts" Sample.rest
           None (Some "") None None
           (Sample.context_of (RELATIONSHIP_INSTANCE Sample.vm Sample.app))
           Sample.app
           (expected_host_config VNone VNone VNone VNone (VBool true))).
  - reflexivity.
  - by_evaluation.
  - intros (s & H & _). discriminate H.
  - intros (s & H & Hne). injection H as <-. apply Hne. reflexivity.
  - exact sample_not_compute.
Defined.

Lemma get_source_config_from_ctx_bad_common_args_witness :
  get_source_config_from_ctx "sources" "hosts" Sample.rest None None
    (Some {[ "ansible_ssh_common_args" := VNone ]}) None Sample.relationship
  = (inl TypeError, Sample.relationship).
Proof.
  apply (get_source_config_from_ctx_bad_common_args "sources" "hosts"
           Sample.rest None None {[ "ansible_ssh_common_args" := VNone ]}
           None Sample.relationship Sample.vm VNone
           "cloudify.nodes.Compute" "vm_x7k2p1").
  - reflexivity.
  - by_evaluation.
  - exact I.
  - by_evaluation.
Defined.

Lemma sample_vm_is_compute :
  COMPUTE ∈ type_hierarchy (s_node Sample.vm).
Proof.
  apply (proj1 (bool_decide_eq_true _)). by_evaluation.
Defined.

(** An operation on [vm] itself. *)
Lemma get_source_config_from_ctx_compute_node_witness :
  exists doc,
    get_source_config_from_ctx "sources" "hosts" Sample.rest None None None
      None (Sample.context_of (NODE_INSTANCE Sample.vm))
    = (inr (VDict doc), Sample.context_of (NODE_INSTANCE Sample.vm))
    /\ doc !! "webservers"
       = Some (VDict {[ "hosts" := VDict {[ "vm_x7k2p1" := VNone ]} ]}).
Proof.
  destruct (get_source_config_from_ctx_compute_node "sources" "hosts"
              Sample.rest None None None None
              (Sample.context_of (NODE_INSTANCE Sample.vm)) Sample.vm
              (expected_host_config (VStr "10.0.0.5") (VStr "ubuntu") VNone
                 VNone (VBool true))
              true)
    as (doc & Hrun & Hdoc).
  - reflexivity.
  - exact sample_vm_is_compute.
  - by_evaluation.
  - by_evaluation.
  - exact sample_group_is_not_auxiliary.
  - exists doc. split; [exact Hrun |]. rewrite Hdoc. by_evaluation.
Defined.

Lemma get_remerged_config_sources_relationship_witness :
  exists merged,
    (get_remerged_config_sources "sources" "hosts" Sample.rest
       (Kwargs None (Some "web1") None) Sample.relationship).1
    = inr merged
    /\ runtime_properties
         (_get_instance
            (get_remerged_config_sources "sources" "hosts" Sample.rest
               (Kwargs None (Some "web1") None) Sample.relationship).2)
         !! "sources" = Some merged.
Proof.
  destruct (get_remerged_config_sources_relationship "sources" "hosts"
              Sample.rest (Kwargs None (Some "web1") None)
              Sample.relationship Sample.app Sample.vm
              (expected_host_config (VStr "10.0.0.5") (VStr "ubuntu") VNone
                 VNone (VBool true))
              "cloudify.nodes.Compute" "web1" true)
    as (Hrun & Hstored & _).
  - reflexivity.
  - by_evaluation.
  - by_evaluation.
  - by_evaluation.
  - eexists. split; [rewrite Hrun; reflexivity | exact Hstored].
Defined.

Lemma stored_sources_read_back_witness :
  exists src',
    ctx_view
      (update_sources_from_target "sources" "hosts" Sample.fragment
         Sample.relationship).2
    = RELATIONSHIP_INSTANCE src' Sample.vm
    /\ s_node src' = s_node Sample.app
    /\ get_source_config_from_ctx "sources" "hosts" Sample.rest
         (Some "webservers") None None None
         (set_view (NODE_INSTANCE src')
            (update_sources_from_target "sources" "hosts" Sample.fragment
               Sample.relationship).2)
       = ((update_sources_from_target "sources" "hosts" Sample.fragment
             Sample.relationship).1,
          set_view (NODE_INSTANCE src')
            (update_sources_from_target "sources" "hosts" Sample.fragment
               Sample.relationship).2).
Proof.
  apply (stored_sources_read_back "sources" "hosts" Sample.rest
           Sample.fragment (Some "webservers") None None None
           Sample.relationship Sample.app Sample.vm).
  - reflexivity.
  - exact sample_not_compute.
  - eexists. split; vm_compute; reflexivity.
Defined.

(** *** Key material *)

(** The document [app] holds has dictionaries three levels down and no
    key-file entry. *)
Lemma handle_key_data_nothing_to_do_witness :
  handle_key_data Sample.app_sources "/tmp/tmpXk2a9b" Sample.os
  = (inr Sample.app_sources, Sample.os).
Proof.
  apply handle_key_data_nothing_to_do. unfold Sample.app_sources.
  intros path leaf H.
  repeat
    match goal with
    | H : reaches _ _ _ |- _ =>
        inversion H as [? [? Hhere] | ? ? ? ? ? _ Hdown ?];
        clear H; subst;
        [ apply lookup_singleton_Some in Hhere as [Hkey _];
          discriminate Hkey
        | apply lookup_singleton_Some in Hdown as [_ Hitem];
          try discriminate Hitem; injection Hitem as <- ]
    end.
Defined.

Lemma handle_key_data_keeps_shape_witness :
  dom (<[KEY_FILE := VStr "/tmp/tmpXk2a9b/key-"]> Sample.host_entry)
  = dom Sample.host_entry
  /\ <[KEY_FILE := VStr "/tmp/tmpXk2a9b/key-"]> Sample.host_entry
     !! "ansible_host" = Some (VStr "10.0.0.5").
Proof.
  destruct (handle_key_data_keeps_shape "/tmp/tmpXk2a9b" Sample.host_entry
              Sample.os
              (<[KEY_FILE := VStr "/tmp/tmpXk2a9b/key-"]> Sample.host_entry)
              (key_file_written "/tmp/tmpXk2a9b/key-" Sample.inline_key
                 Sample.os))
    as (Hdom & Hkept & _).
  - by_evaluation.
  - split; [exact Hdom |].
    apply Hkept; [by_evaluation | discriminate | discriminate].
Defined.

Lemma handle_key_data_not_a_string_witness :
  (handle_key_data {[ KEY_FILE := VInt 7 ]} "/tmp/tmpXk2a9b" Sample.os).1
  = inl TypeError.
Proof.
  destruct (handle_key_data_not_a_string "/tmp/tmpXk2a9b"
              {[ KEY_FILE := VInt 7 ]} (VInt 7) Sample.os)
    as (Htype & _).
  - by_evaluation.
  - intros k. discriminate.
  - apply Htype. split; [by_evaluation |].
    vm_compute. intros H. discriminate H.
Defined.

(** *** The workspace *)

Lemma create_then_delete_playbook_workspace_witness :
  let created :=
    create_playbook_workspace SampleHost.WORKSPACE SampleHost.mkdtemp
      (SampleHost.world_of Sample.app Sample.os) in
  runtime_properties (_get_instance (w_ctx created.2))
    !! SampleHost.WORKSPACE = Some (VStr "/tmp/tmpXk2a9b")
  /\ delete_playbook_workspace SampleHost.WORKSPACE SampleHost.rmtree
       created.2
     = on_os (SampleHost.rmtree "/tmp/tmpXk2a9b") created.2.
Proof.
  destruct (create_then_delete_playbook_workspace SampleHost.WORKSPACE
              SampleHost.rmtree SampleHost.mkdtemp
              (SampleHost.world_of Sample.app Sample.os) "/tmp/tmpXk2a9b"
              (set_files (insert "/tmp/tmpXk2a9b" Dir) Sample.os))
    as (_ & _ & Hrecorded & Hdelete).
  - reflexivity.
  - discriminate.
  - by_evaluation.
  - split; [exact Hrecorded | exact Hdelete].
Defined.

(** *** Running a playbook *)

Lemma run_playbook_key_mode_witness :
  let out :=
    run_playbook SampleHost.get_playbook_path SampleHost.get_inventory_path
      SampleHost.get_executible_path SampleHost.run_command
      "/tmp/tmpXk2a9b/id_rsa" "site.yaml" "10.0.0.5"
      (SampleHost.world_of Sample.app SampleHost.with_key) in
  out.1 = inr tt
  /\ files (w_os out.2) !! "/tmp/tmpXk2a9b/id_rsa"
     = Some (File Sample.inline_key 384).
Proof.
  destruct (run_playbook_key_mode SampleHost.get_playbook_path
              SampleHost.get_inventory_path SampleHost.get_executible_path
              "/tmp/tmpXk2a9b/id_rsa" "site.yaml" "10.0.0.5"
              (SampleHost.world_of Sample.app SampleHost.with_key)
              _ _ _ _ _ _ eq_refl eq_refl eq_refl)
    as (_ & Hfile).
  destruct (Hfile Sample.inline_key 420%Z ltac:(by_evaluation)
              SampleHost.run_command)
    as (_ & _ & Hrun).
  cbv zeta. rewrite (Hrun _ _ eq_refl).
  split; [reflexivity | by_evaluation].
Defined.

(** *** The hosts file *)

Lemma handle_sources_dictionary_witness :
  let out :=
    handle_sources SampleHost.WORKSPACE "hosts" SampleHost.readable
      SampleHost.download_resource SampleHost.safe_dump
      (VDict Sample.host_entry) SampleHost.site_yaml
      (SampleHost.world_of SampleHost.staged Sample.os) in
  out.1 = inr "/tmp/tmpXk2a9b/playbook/hosts"
  /\ exists mode,
       w_os out.2
       = set_files
           (insert "/tmp/tmpXk2a9b/playbook/hosts"
              (File
                 (SampleHost.safe_dump
                    (<[KEY_FILE := VStr "/tmp/tmpXk2a9b/key-"]>
                       Sample.host_entry)) mode))
           (key_file_written "/tmp/tmpXk2a9b/key-" Sample.inline_key
              Sample.os).
Proof.
  destruct (handle_sources_dictionary SampleHost.WORKSPACE "hosts"
              SampleHost.readable SampleHost.download_resource
              SampleHost.safe_dump Sample.host_entry
              (<[KEY_FILE := VStr "/tmp/tmpXk2a9b/key-"]> Sample.host_entry)
              SampleHost.site_yaml "/tmp/tmpXk2a9b"
              (SampleHost.world_of SampleHost.staged Sample.os)
              (key_file_written "/tmp/tmpXk2a9b/key-" Sample.inline_key
                 Sample.os))
    as (Hpath & Hfile & _).
  - by_evaluation.
  - by_evaluation.
  - by_evaluation.
  - vm_compute. intros H. discriminate H.
  - reflexivity.
  - split; [exact Hpath | exact Hfile].
Defined.

(** [app] before a workspace has been made for it. *)
Lemma handle_sources_no_workspace_witness :
  handle_sources SampleHost.WORKSPACE "hosts" SampleHost.readable
    SampleHost.download_resource SampleHost.safe_dump
    (VDict Sample.inventory) SampleHost.site_yaml
    (SampleHost.world_of Sample.app Sample.os)
  = (inl (KeyError "workspace"),
     SampleHost.world_of Sample.app Sample.os).
Proof.
  apply (handle_sources_no_workspace SampleHost.WORKSPACE "hosts"
           SampleHost.readable SampleHost.download_resource
           SampleHost.safe_dump Sample.inventory SampleHost.site_yaml
           (SampleHost.world_of Sample.app Sample.os)).
  by_evaluation.
Defined.

(** No inventory given and no [hosts] file beside the playbook. *)
Lemma handle_sources_other_data_witness :
  handle_sources SampleHost.WORKSPACE "hosts" SampleHost.readable
    SampleHost.download_resource SampleHost.safe_dump VNone
    SampleHost.site_yaml (SampleHost.world_of SampleHost.staged Sample.os)
  = (inl IOError, SampleHost.world_of SampleHost.staged Sample.os).
Proof.
  destruct (handle_sources_other_data SampleHost.WORKSPACE "hosts"
              SampleHost.readable SampleHost.download_resource
              SampleHost.safe_dump VNone SampleHost.site_yaml
              (SampleHost.world_of SampleHost.staged Sample.os) I)
    as (_ & _ & Hio).
  apply Hio. intros [_ (c & m & H)]. vm_compute in H. discriminate H.
Defined.

Lemma handle_sources_inline_text_witness :
  (handle_sources SampleHost.WORKSPACE "hosts" SampleHost.readable
     SampleHost.download_resource SampleHost.safe_dump
     (VStr ("[webservers]" ++ NEWLINE ++ "10.0.0.5" ++ NEWLINE))
     SampleHost.site_yaml
     (SampleHost.world_of SampleHost.staged Sample.os)).1
  = inr "/tmp/tmpXk2a9b/playbook/hosts".
Proof.
  destruct (handle_sources_inline_text SampleHost.WORKSPACE "hosts"
              SampleHost.readable SampleHost.download_resource
              SampleHost.safe_dump
              ("[webservers]" ++ NEWLINE ++ "10.0.0.5" ++ NEWLINE)
              SampleHost.site_yaml
              (SampleHost.world_of SampleHost.staged Sample.os))
    as (Hpath & _).
  - by_evaluation.
  - by_evaluation.
  - vm_compute. intros H. discriminate H.
  - reflexivity.
  - exact Hpath.
Defined.

(** *** Key files *)




(** Two hosts with inline keys: each key goes to a file of its own. *)
Example two_hosts_two_key_files :
  let hosts : gmap string value :=
    {[ "hosts" :=
         VDict {[ "web1" := VDict {[ KEY_FILE := VStr "KEY ONE" ]};
                  "web2" := VDict {[ KEY_FILE := VStr "KEY TWO" ]} ]} ]} in
  let out := handle_key_data hosts "/tmp/tmpXk2a9b" Sample.os in
  out.1
  = inr {[ "hosts" :=
             VDict
               {[ "web1" :=
                    VDict {[ KEY_FILE := VStr "/tmp/tmpXk2a9b/key-" ]};
                  "web2" :=
                    VDict {[ KEY_FILE := VStr "/tmp/tmpXk2a9b/key-i" ]} ]} ]}
  /\ files out.2
     = {[ "/tmp/tmpXk2a9b" := Dir;
          "/tmp/tmpXk2a9b/key-" := File "KEY ONE" 384;
          "/tmp/tmpXk2a9b/key-i" := File "KEY TWO" 384 ]}.
Proof. cbv zeta. split; by_evaluation. Qed.
